(** * Markdown-to-HTML conversion pipeline: a shallow embedding

    The development follows the Python sources of the converter:
    - [src/processors/mermaid_processor.py]  (module [Mermaid])
    - [src/processors/image_processor.py]    (module [Image])
    - [src/themes/__init__.py], [src/themes/base.py] (module [Themes])
    - [src/core/converter.py]                (module [Converter])

    Python [str] values are [string]s; the two regular expressions of the
    processors are embedded as anchored matchers driven by one scanning
    engine that plays the role of [re.sub], [re.findall] and [re.search].
    Exceptions are values of an error type, and the file system is an
    explicit state with an interface of operations. *)

From Stdlib Require Import Strings.String Strings.Ascii Lists.List.
From Stdlib Require Import Bool Arith Lia DecimalString.
Import ListNotations.

Open Scope string_scope.

(* ================================================================== *)
(** ** Text primitives *)

Module Text.

(** The line feed and the double quote, which string literals of this
    file do not spell out. *)
Definition nl : string := String (ascii_of_nat 10) EmptyString.
Definition dq : string := String (ascii_of_nat 34) EmptyString.

(** [s.startswith(p)] *)
Fixpoint startswith (s p : string) {struct p} : bool :=
  match p with
  | EmptyString => true
  | String a p' =>
      match s with
      | EmptyString => false
      | String b s' => Ascii.eqb a b && startswith s' p'
      end
  end.

(** [s[n:]] *)
Fixpoint drop (n : nat) (s : string) : string :=
  match n, s with
  | O, _ => s
  | S _, EmptyString => EmptyString
  | S k, String _ s' => drop k s'
  end.

(** [sub in s] *)
Fixpoint contains (s sub : string) : bool :=
  startswith s sub ||
  match s with
  | EmptyString => false
  | String _ s' => contains s' sub
  end.

(** [s.partition(sep)] when [sep] occurs: the text before the first
    occurrence and the text after it. *)
Fixpoint partition (sep s : string) : option (string * string) :=
  if startswith s sep then Some (EmptyString, drop (String.length sep) s)
  else
    match s with
    | EmptyString => None
    | String c s' =>
        match partition sep s' with
        | Some (before, after) => Some (String c before, after)
        | None => None
        end
    end.

(** The longest prefix free of the character [x], and what follows it:
    the greedy run of a negated character class [[^x]*]. *)
Fixpoint span_not (x : ascii) (s : string) : string * string :=
  match s with
  | EmptyString => (EmptyString, EmptyString)
  | String c s' =>
      if Ascii.eqb c x then (EmptyString, s)
      else let (run, rest) := span_not x s' in (String c run, rest)
  end.

(** [s.lstrip(c)] for a one-character set. *)
Fixpoint lstrip (x : ascii) (s : string) : string :=
  match s with
  | EmptyString => EmptyString
  | String c s' => if Ascii.eqb c x then lstrip x s' else s
  end.

(** [''.join(parts)] *)
Fixpoint join (parts : list string) : string :=
  match parts with
  | [] => EmptyString
  | p :: ps => p ++ join ps
  end.

(** Membership of a character in a text. *)
Fixpoint has_char (x : ascii) (s : string) : bool :=
  match s with
  | EmptyString => false
  | String c s' => Ascii.eqb c x || has_char x s'
  end.

End Text.

(* ================================================================== *)
(** ** The scanning engine behind [re.sub], [re.findall], [re.search] *)

Module Re.

Section Engine.
Context {M : Type}.

(** A compiled pattern is a matcher anchored at the start of the text:
    it yields the match data and the number of characters the match
    spans.  Both patterns of this program span at least five
    characters, so the engine never meets an empty match. *)
Variable match_at : string -> option (M * nat).

(** A scanned text: the characters no match covers, and the matches,
    in text order. *)
Inductive piece : Type :=
| Lit (c : ascii)
| Hit (m : M).

(** Left-to-right scan for non-overlapping matches; [skip] counts the
    characters of the current match still to be passed over. *)
Fixpoint scan_from (skip : nat) (s : string) : list piece :=
  match s with
  | EmptyString => []
  | String c s' =>
      match skip with
      | S k => scan_from k s'
      | O =>
          match match_at s with
          | Some (m, n) => Hit m :: scan_from (pred n) s'
          | None => Lit c :: scan_from 0 s'
          end
      end
  end.

Definition finditer (s : string) : list piece := scan_from 0 s.

Fixpoint hits (ps : list piece) : list M :=
  match ps with
  | [] => []
  | Lit _ :: ps' => hits ps'
  | Hit m :: ps' => m :: hits ps'
  end.

(** [re.findall]: the matches, leftmost first. *)
Definition findall (s : string) : list M := hits (finditer s).

(** [re.search]: the leftmost match, if any. *)
Fixpoint search (s : string) : option M :=
  match match_at s with
  | Some (m, _) => Some m
  | None =>
      match s with
      | EmptyString => None
      | String _ s' => search s'
      end
  end.

(** [re.sub(pattern, repl, s)] with a function [repl]. *)
Definition sub (repl : M -> string) (s : string) : string :=
  Text.join
    (map (fun p => match p with
                   | Lit c => String c EmptyString
                   | Hit m => repl m
                   end)
         (finditer s)).

End Engine.

Arguments piece : clear implicits.
Arguments Lit {M} c.
Arguments Hit {M} m.

Section Reassembly.
Context {M : Type}.
Variable match_at : string -> option (M * nat).

(** The text a match was made of ([match.group(0)]). *)
Variable matched : M -> string.

(** The text a scan came from: its pieces put back together. *)
Definition source_text (ps : list (piece M)) : string :=
  Text.join (map (fun p => match p with
                           | Lit c => String c EmptyString
                           | Hit m => matched m
                           end) ps).

(** A character the scan leaves alone is one where the pattern does not
    match the text from there on. *)
Fixpoint lits_unmatched (ps : list (piece M)) : Prop :=
  match ps with
  | [] => True
  | Lit c :: ps' =>
      match_at (String c (source_text ps')) = None /\ lits_unmatched ps'
  | Hit _ :: ps' => lits_unmatched ps'
  end.

End Reassembly.

End Re.

(* ================================================================== *)
(** ** MermaidProcessor *)

Module Mermaid.
Import Text.

Definition fence_word : string := "```mermaid".
Definition fence_open : string := fence_word ++ nl.
Definition fence_close : string := nl ++ "```".

(** [self.pattern = r'```mermaid\n(.*?)\n```'] under [re.DOTALL]: the
    opening fence, then the shortest text followed by the closing
    fence.  The match data is group 1. *)
Definition pattern (s : string) : option (string * nat) :=
  if startswith s fence_open then
    match partition fence_close (drop (String.length fence_open) s) with
    | Some (body, _) =>
        Some (body,
              String.length fence_open + String.length body
              + String.length fence_close)
    | None => None
    end
  else None.

Definition div_open : string :=
  "<div class=" ++ dq ++ "mermaid" ++ dq ++ ">" ++ nl.
Definition div_close : string := nl ++ "</div>".

(** The f-string of the callback: the wrapper around group 1. *)
Definition replace_mermaid (mermaid_code : string) : string :=
  div_open ++ mermaid_code ++ div_close.

(** [match.group(0)]: the fenced block as written. *)
Definition group0 (body : string) : string :=
  fence_open ++ body ++ fence_close.

Definition process (content : string) : string :=
  Re.sub pattern replace_mermaid content.

(** The rewritten text and the original text of a scanned text. *)
Definition rewritten : list (Re.piece string) -> string :=
  Re.source_text replace_mermaid.
Definition original : list (Re.piece string) -> string :=
  Re.source_text group0.

Definition extract_diagrams (content : string) : list string :=
  Re.findall pattern content.

Definition has_mermaid (content : string) : bool :=
  match Re.search pattern content with
  | Some _ => true
  | None => false
  end.

(** [get_mermaid_script]: the loader of the rendering library, with its
    ordered list of sources and its text fallback. *)
Definition get_mermaid_script : string := "
        // Mermaid.js 多CDN加载策略
        (function() {
            const cdns = [
                'https://cdn.bootcdn.net/ajax/libs/mermaid/10.6.1/mermaid.min.js',
                'https://unpkg.com/mermaid@10/dist/mermaid.min.js',
                'https://cdn.jsdelivr.net/npm/mermaid@10/dist/mermaid.min.js'
            ];

            let loaded = false;
            let currentIndex = 0;

            function loadScript(url, onSuccess, onError) {
                const script = document.createElement('script');
                script.src = url;
                script.onload = onSuccess;
                script.onerror = onError;
                script.async = false;
                document.head.appendChild(script);
            }

            function tryNextCDN() {
                if (currentIndex >= cdns.length) {
                    console.error('所有Mermaid CDN加载失败');
                    window.mermaidLoadFailed = true;
                    handleMermaidFallback();
                    return;
                }

                loadScript(
                    cdns[currentIndex],
                    function() {
                        loaded = true;
                        console.log('Mermaid已从CDN加载:', cdns[currentIndex]);
                        initMermaid();
                    },
                    function() {
                        currentIndex++;
                        tryNextCDN();
                    }
                );
            }

            function initMermaid() {
                if (typeof mermaid !== 'undefined') {
                    try {
                        mermaid.initialize({
                            startOnLoad: true,
                            theme: 'default',
                            securityLevel: 'loose',
                            flowchart: {
                                useMaxWidth: true,
                                htmlLabels: true,
                                curve: 'basis'
                            }
                        });
                        console.log('Mermaid初始化成功');
                    } catch (e) {
                        console.error('Mermaid初始化失败:', e);
                        handleMermaidFallback();
                    }
                }
            }

            function handleMermaidFallback() {
                // 降级显示：将 Mermaid 转换为文本
                document.querySelectorAll('.mermaid').forEach(function(element) {
                    if (!element.classList.contains('mermaid-fallback')) {
                        const text = element.textContent.trim();
                        element.classList.add('mermaid-fallback');
                        element.innerHTML = '<pre>' + text + '</pre>';
                    }
                });
            }

            // 开始加载
            tryNextCDN();
        })();
        ".

End Mermaid.

(* ================================================================== *)
(** ** Exceptions *)

Module Exn.

(** A raised exception: its class and [str(e)]. *)
Record exn : Type := { exn_class : string; exn_msg : string }.

Inductive result (A : Type) : Type :=
| Ok (a : A)
| Raise (e : exn).
Arguments Ok {A} a.
Arguments Raise {A} e.

Definition bind {A B : Type} (r : result A) (k : A -> result B) : result B :=
  match r with
  | Ok a => k a
  | Raise e => Raise e
  end.

End Exn.

(* ================================================================== *)
(** ** pathlib: pure POSIX paths *)

Module Pathlib.
Import Text Exn.

(** A parsed path: whether it is anchored at the root, and its
    components.  Empty components and single dots are collapsed when a
    path is built, as [PurePosixPath] does. *)
Record Path : Type := { absolute : bool; parts : list string }.

Fixpoint split_on (x : ascii) (s : string) : list string :=
  match s with
  | EmptyString => [EmptyString]
  | String c s' =>
      if Ascii.eqb c x then EmptyString :: split_on x s'
      else
        match split_on x s' with
        | [] => [String c EmptyString]
        | h :: t => String c h :: t
        end
  end.

Definition kept (component : string) : bool :=
  negb (String.eqb component "" || String.eqb component ".").

(** [Path(s)] *)
Definition mk (s : string) : Path :=
  {| absolute := startswith s "/";
     parts := filter kept (split_on "/" s) |}.

Definition is_absolute (p : Path) : bool := absolute p.

(** [p.name]: the final component, empty for [.] and [/]. *)
Definition name (p : Path) : string := last (parts p) EmptyString.

(** [p.parent] *)
Definition parent (p : Path) : Path :=
  {| absolute := absolute p; parts := removelast (parts p) |}.

(** [p / s] for a string [s] *)
Definition joinpath (p : Path) (s : string) : Path :=
  let q := mk s in
  if absolute q then q
  else {| absolute := absolute p; parts := parts p ++ parts q |}.

Fixpoint sep_join (l : list string) : string :=
  match l with
  | [] => EmptyString
  | [a] => a
  | a :: l' => a ++ "/" ++ sep_join l'
  end.

(** [str(p)] *)
Definition str (p : Path) : string :=
  if absolute p then "/" ++ sep_join (parts p)
  else
    match parts p with
    | [] => "."
    | _ => sep_join (parts p)
    end.

(** The text before the last dot of a name, and the text from that dot
    on ([name.rfind('.')]). *)
Fixpoint rpartition_dot (s : string) : option (string * string) :=
  match s with
  | EmptyString => None
  | String c s' =>
      match rpartition_dot s' with
      | Some (before, from_dot) => Some (String c before, from_dot)
      | None => if Ascii.eqb c "." then Some (EmptyString, s) else None
      end
  end.

(** The split of a name into stem and suffix: the last dot counts
    when it is neither the first nor the last character. *)
Definition split_suffix (nm : string) : string * string :=
  match rpartition_dot nm with
  | Some (before, from_dot) =>
      if String.eqb before "" || String.eqb from_dot "." then (nm, EmptyString)
      else (before, from_dot)
  | None => (nm, EmptyString)
  end.

Definition suffix (p : Path) : string := snd (split_suffix (name p)).
Definition stem (p : Path) : string := fst (split_suffix (name p)).

(** [p.with_suffix(s)], for a well-formed suffix [s] (this program
    only passes ['.html']).  A path with an empty name has no suffix to
    replace: pathlib raises [ValueError]. *)
Definition with_suffix (p : Path) (s : string) : result Path :=
  if String.eqb (name p) "" then
    Raise {| exn_class := "ValueError";
             exn_msg := "PosixPath('" ++ str p ++ "') has an empty name" |}
  else
    Ok {| absolute := absolute p;
          parts := removelast (parts p) ++ [stem p ++ s] |}.

Definition eqb (p q : Path) : bool :=
  Bool.eqb (absolute p) (absolute q)
  && if list_eq_dec string_dec (parts p) (parts q) then true else false.

End Pathlib.

(* ================================================================== *)
(** ** The file system *)

Module Fs.
Import Exn Pathlib.

(** The operations the converter performs on files.  Contents are
    byte strings; a failing write may still leave the store changed.
    Two facts of any file system are part of the interface:
    [anchor_exists], a path with an empty name is the current directory
    or the root, and those exist; [below_exists], a path below [p]
    exists only if [p] does. *)
Class FileSystem (FS : Type) : Type := {
  exists_ : FS -> Path -> bool;
  read_text : FS -> Path -> result string;
  read_bytes : FS -> Path -> result string;
  stat_size : FS -> Path -> result nat;
  write_text : FS -> Path -> string -> FS * option exn;
  anchor_exists : forall fs p, name p = "" -> exists_ fs p = true;
  below_exists :
    forall fs p s,
      is_absolute (mk s) = false ->
      exists_ fs (joinpath p s) = true -> exists_ fs p = true
}.

(** *** A small concrete store, used to run the code on examples *)

Inductive node : Type :=
| File (content : string)
| Dir.

Definition store : Type := list (Path * node).

Fixpoint lookup (fs : store) (p : Path) : option node :=
  match fs with
  | [] => None
  | (q, n) :: fs' => if Pathlib.eqb q p then Some n else lookup fs' p
  end.

(** Every prefix of the path is an entry of the store. *)
Fixpoint resolves (fs : store) (anchored : bool) (walked todo : list string)
  : bool :=
  match todo with
  | [] => true
  | c :: todo' =>
      let here := (walked ++ [c])%list in
      match lookup fs {| absolute := anchored; parts := here |} with
      | Some _ => resolves fs anchored here todo'
      | None => false
      end
  end.

Definition store_exists (fs : store) (p : Path) : bool :=
  String.eqb (name p) "" || resolves fs (absolute p) [] (parts p).

Definition node_of (fs : store) (p : Path) : option node :=
  if String.eqb (name p) "" then Some Dir
  else if resolves fs (absolute p) [] (parts p) then lookup fs p
  else None.

Definition os_error (cls msg : string) (p : Path) : exn :=
  {| exn_class := cls; exn_msg := msg ++ ": '" ++ str p ++ "'" |}.

Definition store_read (fs : store) (p : Path) : result string :=
  match node_of fs p with
  | Some (File c) => Ok c
  | Some Dir => Raise (os_error "IsADirectoryError" "[Errno 21] Is a directory" p)
  | None => Raise (os_error "FileNotFoundError" "[Errno 2] No such file or directory" p)
  end.

Definition store_stat (fs : store) (p : Path) : result nat :=
  match node_of fs p with
  | Some (File c) => Ok (String.length c)
  | Some Dir => Ok 4096
  | None => Raise (os_error "FileNotFoundError" "[Errno 2] No such file or directory" p)
  end.

Definition store_write (fs : store) (p : Path) (text : string)
  : store * option exn :=
  match node_of fs p with
  | Some Dir => (fs, Some (os_error "IsADirectoryError" "[Errno 21] Is a directory" p))
  | _ =>
      match node_of fs (parent p) with
      | Some Dir => ((p, File text) :: fs, None)
      | _ => (fs, Some (os_error "FileNotFoundError"
                          "[Errno 2] No such file or directory" p))
      end
  end.

#[export] Instance store_fs : FileSystem store.
Proof.
  refine {| exists_ := store_exists;
            read_text := store_read;
            read_bytes := store_read;
            stat_size := store_stat;
            write_text := store_write |}.
  - intros fs p Hp. unfold store_exists. now rewrite Hp.
  - intros fs p s Hrel. unfold store_exists, joinpath, is_absolute in *.
    rewrite Hrel. unfold name. cbn [absolute parts].
    assert (Hwalk : forall todo more walked,
               resolves fs (absolute p) walked (todo ++ more) = true ->
               resolves fs (absolute p) walked todo = true).
    { induction todo as [|c todo IH]; intros more walked Hr;
        [reflexivity|].
      cbn [resolves app] in *.
      destruct (lookup fs _); [eauto | discriminate]. }
    intros Hex. apply orb_true_iff in Hex as [Hname | Hres].
    + destruct (parts (mk s)) as [|c q] eqn:Hq.
      * rewrite app_nil_r in Hname. now rewrite Hname.
      * exfalso.
        destruct (@exists_last _ (c :: q)) as (q' & x & Hx);
          [discriminate|].
        assert (Hin : In x (parts (mk s))).
        { rewrite Hq, Hx. apply in_or_app. right. now left. }
        rewrite Hx, app_assoc, last_last in Hname.
        apply String.eqb_eq in Hname. subst x.
        cbn [mk parts] in Hin. apply filter_In in Hin as [_ Hk].
        discriminate Hk.
    + apply orb_true_iff. right. eapply Hwalk. exact Hres.
Defined.

End Fs.

(* ================================================================== *)
(** ** base64 *)

Module Base64.

Definition alphabet : string :=
  "ABCDEFGHIJKLMNOPQRSTUVWXYZabcdefghijklmnopqrstuvwxyz0123456789+/".

Definition digit (n : nat) : string :=
  match String.get n alphabet with
  | Some c => String c EmptyString
  | None => "="
  end.

(** [base64.b64encode(data).decode('utf-8')] *)
Fixpoint b64encode (data : string) : string :=
  match data with
  | EmptyString => EmptyString
  | String a EmptyString =>
      let x := nat_of_ascii a in
      digit (x / 4) ++ digit ((x mod 4) * 16) ++ "=="
  | String a (String b EmptyString) =>
      let x := nat_of_ascii a in
      let y := nat_of_ascii b in
      digit (x / 4) ++ digit ((x mod 4) * 16 + y / 16)
        ++ digit ((y mod 16) * 4) ++ "="
  | String a (String b (String c rest)) =>
      let x := nat_of_ascii a in
      let y := nat_of_ascii b in
      let z := nat_of_ascii c in
      digit (x / 4) ++ digit ((x mod 4) * 16 + y / 16)
        ++ digit ((y mod 16) * 4 + z / 64) ++ digit (z mod 64)
        ++ b64encode rest
  end.

End Base64.

(* ================================================================== *)
(** ** ImageProcessor *)

Module Image.
Import Text Exn Pathlib Fs.

(** The two groups of a match of the image pattern. *)
Record ImageReference : Type := { alt_text : string; image_path : string }.

(** [match.group(0)] *)
Definition group0 (m : ImageReference) : string :=
  "![" ++ alt_text m ++ "](" ++ image_path m ++ ")".

(** [self.pattern]: an exclamation mark, a bracketed alt text of any
    characters but the closing bracket (group 1), and a parenthesised
    non-empty path of any characters but the closing parenthesis
    (group 2).  Each negated class is greedy and is followed by the very
    character it excludes, so the only run that can succeed is the
    longest one. *)
Definition pattern (s : string) : option (ImageReference * nat) :=
  if startswith s "![" then
    let (alt, after_alt) := span_not "]" (drop 2 s) in
    if startswith after_alt "](" then
      let (path, after_path) := span_not ")" (drop 2 after_alt) in
      if negb (String.eqb path "") && startswith after_path ")" then
        Some ({| alt_text := alt; image_path := path |},
              2 + String.length alt + 2 + String.length path + 1)
      else None
    else None
  else None.

Definition supported_formats : list (string * string) :=
  [ (".png", "image/png");
    (".jpg", "image/jpeg");
    (".jpeg", "image/jpeg");
    (".gif", "image/gif");
    (".bmp", "image/bmp");
    (".webp", "image/webp");
    (".svg", "image/svg+xml") ].

(** [d.get(key, default)] on a dictionary with string keys *)
Fixpoint dict_get {V : Type} (d : list (string * V)) (key : string)
    (default : V) : V :=
  match d with
  | [] => default
  | (k, v) :: d' => if String.eqb k key then v else dict_get d' key default
  end.

Definition lower_char (c : ascii) : ascii :=
  let n := nat_of_ascii c in
  if ((65 <=? n)%nat && (n <=? 90)%nat)%bool then ascii_of_nat (n + 32) else c.

(** [s.lower()] on ASCII letters *)
Fixpoint lower (s : string) : string :=
  match s with
  | EmptyString => EmptyString
  | String c s' => String (lower_char c) (lower s')
  end.

Definition common_dirs : list string :=
  ["images"; "img"; "assets"; "static"; "media"].

Definition remote_prefixes : list string :=
  ["http://"; "https://"; "data:"].

(** [image_path.startswith(('http://', 'https://', 'data:'))] *)
Definition is_remote (image_path : string) : bool :=
  existsb (startswith image_path) remote_prefixes.

(** What the processor prints, line by line. *)
Inductive diagnostic : Type :=
| Embedded (file_name : string) (size : nat)
| ProcessFailed (image_path : string) (e : exn)
| NotFound (image_path : string)
| EncodeFailed (file_path : Path) (e : exn).

Section WithFileSystem.
Context {FS : Type} `{FileSystem FS}.
Variable fs : FS.

(** The loop over [common_dirs] of [_find_image_file]. *)
Fixpoint find_in_dirs (base_dir : Path) (filename : string)
    (dirs : list string) : option Path :=
  match dirs with
  | [] => None
  | dir_name :: dirs' =>
      let img_dir := joinpath base_dir dir_name in
      if exists_ fs img_dir then
        let img_file := joinpath img_dir filename in
        if exists_ fs img_file then Some img_file
        else find_in_dirs base_dir filename dirs'
      else find_in_dirs base_dir filename dirs'
  end.

Definition path_attempts (image_path : string) (base_dir : Path)
  : list Path :=
  [ mk image_path;
    joinpath base_dir image_path;
    joinpath base_dir (name (mk image_path));
    joinpath base_dir (lstrip "/" image_path) ].

Definition _find_image_file (image_path : string) (base_dir : Path)
  : option Path :=
  match
    find (fun path =>
            (is_absolute path && exists_ fs path)
            || (negb (is_absolute path) && exists_ fs path))
         (path_attempts image_path base_dir)
  with
  | Some path => Some path
  | None => find_in_dirs base_dir (name (mk image_path)) common_dirs
  end.

(** [_to_base64]: the data URL, or [None] with a printed line when
    reading fails. *)
Definition _to_base64 (file_path : Path)
  : option string * list diagnostic :=
  let mime_type :=
    dict_get supported_formats (lower (suffix file_path)) "image/png" in
  match read_bytes fs file_path with
  | Ok img_data =>
      (Some ("data:" ++ mime_type ++ ";base64,"
               ++ Base64.b64encode img_data), [])
  | Raise e => (None, [EncodeFailed file_path e])
  end.

(** The callback of [re.sub]: the replacement text, the updated
    counter and the printed lines. *)
Definition replace_image (base_dir : Path) (m : ImageReference)
    (image_count : nat) : string * nat * list diagnostic :=
  if is_remote (image_path m) then (group0 m, image_count, [])
  else
    match _find_image_file (image_path m) base_dir with
    | Some img_file =>
        if exists_ fs img_file then
          match _to_base64 img_file with
          | (Some data_url, printed) =>
              match stat_size fs img_file with
              | Ok size =>
                  ("![" ++ alt_text m ++ "](" ++ data_url ++ ")",
                   S image_count,
                   (printed ++ [Embedded (name img_file) size])%list)
              | Raise e =>
                  (group0 m, image_count,
                   (printed ++ [ProcessFailed (image_path m) e])%list)
              end
          | (None, printed) => (group0 m, image_count, printed)
          end
        else (group0 m, image_count, [NotFound (image_path m)])
    | None => (group0 m, image_count, [NotFound (image_path m)])
    end.

(** [re.sub] with the counting callback, over the scanned text. *)
Fixpoint substitute (base_dir : Path)
    (ps : list (Re.piece ImageReference)) (image_count : nat)
  : string * nat * list diagnostic :=
  match ps with
  | [] => (EmptyString, image_count, [])
  | Re.Lit c :: ps' =>
      let '(out, n, printed) := substitute base_dir ps' image_count in
      (String c out, n, printed)
  | Re.Hit m :: ps' =>
      let '(r, count', d) := replace_image base_dir m image_count in
      let '(out, n, printed) := substitute base_dir ps' count' in
      (r ++ out, n, (d ++ printed)%list)
  end.

(** [process]: the rewritten text, the number of embedded images,
    and the printed lines. *)
Definition process (content : string) (base_dir : Path)
  : string * nat * list diagnostic :=
  substitute base_dir (Re.finditer pattern content) 0.

End WithFileSystem.

Definition extract_images (content : string) : list string :=
  map image_path (Re.findall pattern content).

End Image.

(* ================================================================== *)
(** ** Themes *)

Module Themes.
Import Text.

(** The three theme classes.  They override [get_styles] and
    [get_scripts] only; rendering is inherited from [BaseTheme]. *)
Inductive ThemeClass : Type :=
| DefaultTheme
| MinimalTheme
| ProfessionalTheme.

(** The style sheet of each theme and the script each theme starts
    from: presentation payloads, passed through as they are. *)
Record Assets : Type := {
  get_styles : ThemeClass -> string;
  base_scripts : ThemeClass -> string
}.

Definition themes : list (string * ThemeClass) :=
  [ ("default", DefaultTheme);
    ("minimal", MinimalTheme);
    ("professional", ProfessionalTheme) ].

(** [themes.get(name, DefaultTheme)] *)
Definition get_theme (name : string) : ThemeClass :=
  Image.dict_get themes name DefaultTheme.

Definition list_themes : list string := ["default"; "minimal"; "professional"].

(** [f'{n}'] for a non-negative integer *)
Definition decimal (n : nat) : string :=
  NilEmpty.string_of_uint (Nat.to_uint n).

(** The holes of the page template of [BaseTheme.render]. *)
Record Page : Type := {
  page_title : string;
  page_styles : string;
  page_header : string;
  page_toc : string;
  page_content : string;
  page_footer : string;
  page_scripts : string
}.

(** The f-string of [BaseTheme.render]. *)
Definition page_text (pg : Page) : string :=
"<!DOCTYPE html>
<html lang=" ++ dq ++ "zh-CN" ++ dq ++ ">
<head>
    <meta charset=" ++ dq ++ "UTF-8" ++ dq ++ ">
    <meta name=" ++ dq ++ "viewport" ++ dq ++ " content=" ++ dq ++ "width=device-width, initial-scale=1.0" ++ dq ++ ">
    <title>" ++ page_title pg ++ "</title>
    <style>
        " ++ page_styles pg ++ "
    </style>
</head>
<body>
    <div class=" ++ dq ++ "container" ++ dq ++ ">
        " ++ page_header pg ++ "
        " ++ page_toc pg ++ "
        <div class=" ++ dq ++ "content" ++ dq ++ " id=" ++ dq ++ "main-content" ++ dq ++ ">
            " ++ page_content pg ++ "
        </div>
        " ++ page_footer pg ++ "
    </div>
    <script>
        " ++ page_scripts pg ++ "
    </script>
</body>
</html>".

Definition _create_header (title : string) (image_count : nat) : string :=
"
        <div class=" ++ dq ++ "header" ++ dq ++ ">
            <h1>" ++ title ++ "</h1>
            <p class=" ++ dq ++ "meta" ++ dq ++ ">包含 " ++ decimal image_count ++ " 张图片</p>
        </div>
        ".

Definition _create_footer : string :=
"
        <div class=" ++ dq ++ "footer" ++ dq ++ ">
            <p>由 Markdown to HTML Converter 生成</p>
        </div>
        ".

(** Python truthiness of a [str] *)
Definition truthy (s : string) : bool :=
  match s with
  | EmptyString => false
  | String _ _ => true
  end.

Definition _create_toc_section (toc_html : string) : string :=
  if negb (truthy toc_html) then EmptyString
  else
"
        <div class=" ++ dq ++ "toc-sidebar" ++ dq ++ " id=" ++ dq ++ "toc-sidebar" ++ dq ++ ">
            <h2>目录</h2>
            " ++ toc_html ++ "
        </div>
        ".

Section Render.
Variable assets : Assets.

(** [get_scripts], alike in the three themes: the theme's own script,
    extended by the diagram loader when the flag is set. *)
Definition get_scripts (th : ThemeClass) (has_mermaid : bool) : string :=
  let scripts := base_scripts assets th in
  if has_mermaid then scripts ++ Mermaid.get_mermaid_script else scripts.

(** The page [BaseTheme.render] fills in; its [config] argument is not
    read. *)
Definition render_page (th : ThemeClass) (body_html toc_html title : string)
    (image_count : nat) (has_mermaid : bool) : Page :=
  let styles := get_styles assets th in
  let scripts := get_scripts th has_mermaid in
  let toc_section :=
    if truthy toc_html then _create_toc_section toc_html else EmptyString in
  {| page_title := title;
     page_styles := styles;
     page_header := _create_header title image_count;
     page_toc := toc_section;
     page_content := body_html;
     page_footer := _create_footer;
     page_scripts := scripts |}.

Definition render (th : ThemeClass) (body_html toc_html title : string)
    (image_count : nat) (has_mermaid : bool) : string :=
  page_text (render_page th body_html toc_html title image_count has_mermaid).

End Render.

End Themes.

(* ================================================================== *)
(** ** HTMLConverter *)

Module Converter.
Import Text Exn Pathlib Fs Themes.

(** What the Markdown library hands back: the body, and the [toc] and
    [Meta] attributes its extensions set ([getattr] defaults when they
    are absent: the empty text, the empty dictionary). *)
Record MdOutput : Type := {
  html_body : string;
  toc : string;
  Meta : list (string * list string)
}.

(** The [duration] field: the literal [0] of the not-found result, or a
    measured wall-clock difference, which is not modelled further. *)
Inductive Duration : Type :=
| NoTime
| Measured.

Record ConversionResult : Type := {
  success : bool;
  output_path : Path;
  file_size : nat;
  image_count : nat;
  duration : Duration;
  error_message : option string
}.

(** How a call ends: it returns a value or lets an exception escape;
    either way the file system may have changed. *)
Inductive outcome (FS A : Type) : Type :=
| Returned (a : A) (fs : FS)
| Raised (e : exn) (fs : FS).
Arguments Returned {FS A} a fs.
Arguments Raised {FS A} e fs.

(** Computations that read and write files and may raise. *)
Definition Run (FS A : Type) : Type := FS -> result A * FS.

Definition ret {FS A : Type} (a : A) : Run FS A := fun fs => (Ok a, fs).

Definition lift {FS A : Type} (r : result A) : Run FS A := fun fs => (r, fs).

Definition rbind {FS A B : Type} (m : Run FS A) (k : A -> Run FS B)
  : Run FS B :=
  fun fs =>
    match m fs with
    | (Ok a, fs') => k a fs'
    | (Raise e, fs') => (Raise e, fs')
    end.

Notation "x <- m ;; k" := (rbind m (fun x => k))
  (at level 61, m at next level, right associativity).

Section WithEnvironment.
Context {FS : Type} `{FileSystem FS}.

(** The presentation payloads and the Markdown library, with the
    extension list and configuration the converter fixes. *)
Variable assets : Assets.
Variable markdown : string -> result MdOutput.

(** [output_path or source_path.with_suffix('.html')] *)
Definition output_or_default (source_path : Path) (output_path : option Path)
  : result Path :=
  match output_path with
  | Some p => Ok p
  | None => with_suffix source_path ".html"
  end.

(** [metadata.get('title', [source_path.stem])[0] if metadata else
    source_path.stem] *)
Definition resolve_title (metadata : list (string * list string))
    (source_path : Path) : result string :=
  match metadata with
  | [] => Ok (stem source_path)
  | _ =>
      match Image.dict_get metadata "title" [stem source_path] with
      | t :: _ => Ok t
      | [] => Raise {| exn_class := "IndexError";
                       exn_msg := "list index out of range" |}
      end
  end.

Definition _create_html_document (body_html toc_html title theme : string)
    (image_count : nat) (has_mermaid : bool) : string :=
  let theme_instance := get_theme theme in
  render assets theme_instance body_html toc_html title image_count has_mermaid.

(** The text handed to the Markdown library: the source after the two
    rewriters, each behind its toggle, with the image count. *)
Definition rewrite (fs : FS) (source_path : Path) (md_content : string)
    (embed_images process_mermaid : bool) : string * nat :=
  let '(md_content, image_count) :=
    if embed_images then
      let '(text, n, _) := Image.process fs md_content (parent source_path) in
      (text, n)
    else (md_content, 0) in
  let md_content :=
    if process_mermaid then Mermaid.process md_content else md_content in
  (md_content, image_count).

(** The steps of [convert] from reading the source to the complete
    document, with the image count. *)
Definition document (source_path : Path) (theme : string)
    (embed_images process_mermaid : bool) : Run FS (string * nat) :=
  md_content <- (fun fs => (read_text fs source_path, fs)) ;;
  fun fs =>
    let '(md_content, image_count) :=
      rewrite fs source_path md_content embed_images process_mermaid in
    (md <- lift (markdown md_content) ;;
     title <- lift (resolve_title (Meta md) source_path) ;;
     ret (_create_html_document (html_body md) (toc md) title theme
            image_count process_mermaid, image_count)) fs.

(** The body of the [try] block of [convert]. *)
Definition attempt (source_path : Path) (output_path : option Path)
    (theme : string) (embed_images process_mermaid : bool)
  : Run FS (ConversionResult) :=
  fun fs =>
    if negb (exists_ fs source_path) then
      (out <- lift (output_or_default source_path output_path) ;;
       ret {| success := false;
              output_path := out;
              file_size := 0;
              image_count := 0;
              duration := NoTime;
              error_message :=
                Some ("文件不存在: " ++ str source_path) |}) fs
    else
      (built <- document source_path theme embed_images process_mermaid ;;
       let '(full_html, image_count) := built in
       out <- lift (output_or_default source_path output_path) ;;
       _ <- (fun fs =>
               match write_text fs out full_html with
               | (fs', None) => (Ok tt, fs')
               | (fs', Some e) => (Raise e, fs')
               end) ;;
       size <- (fun fs => (stat_size fs out, fs)) ;;
       ret {| success := true;
              output_path := out;
              file_size := size;
              image_count := image_count;
              duration := Measured;
              error_message := None |}) fs.

(** The [except Exception] handler of [convert]. *)
Definition on_exception (e : exn) (source_path : Path)
    (output_path : option Path) : result (ConversionResult) :=
  bind (output_or_default source_path output_path)
    (fun out =>
       Ok {| success := false;
             output_path := out;
             file_size := 0;
             image_count := 0;
             duration := Measured;
             error_message := Some (exn_msg e) |}).

Definition convert (fs : FS) (source_path : Path) (output_path : option Path)
    (theme : string) (embed_images process_mermaid : bool)
  : outcome FS (ConversionResult) :=
  match attempt source_path output_path theme embed_images process_mermaid fs
  with
  | (Ok r, fs') => Returned r fs'
  | (Raise e, fs') =>
      match on_exception e source_path output_path with
      | Ok r => Returned r fs'
      | Raise e' => Raised e' fs'
      end
  end.

(** The loop of [convert_batch], with its [results] list. *)
Fixpoint batch_loop (fs : FS) (results : list (ConversionResult))
    (source_paths : list Path) (output_dir : option Path) (theme : string)
    (embed_images process_mermaid : bool)
  : outcome FS (list (ConversionResult)) :=
  match source_paths with
  | [] => Returned results fs
  | source_path :: rest =>
      let output_path :=
        match output_dir with
        | Some d => Some (joinpath d (stem source_path ++ ".html"))
        | None => None
        end in
      match convert fs source_path output_path theme embed_images
              process_mermaid with
      | Returned result fs' =>
          batch_loop fs' (results ++ [result]) rest output_dir theme
            embed_images process_mermaid
      | Raised e fs' => Raised e fs'
      end
  end.

Definition convert_batch (fs : FS) (source_paths : list Path)
    (output_dir : option Path) (theme : string)
    (embed_images process_mermaid : bool)
  : outcome FS (list (ConversionResult)) :=
  batch_loop fs [] source_paths output_dir theme embed_images process_mermaid.

End WithEnvironment.

End Converter.

(* ================================================================== *)
(** ** An environment to run the converter in *)

Module Demo.
Import Text Exn Pathlib Fs Themes Converter.

(** Short payloads in place of the style sheets and scripts. *)
Definition assets : Assets :=
  {| get_styles := fun th =>
       match th with
       | DefaultTheme => "body { margin: 0; }"
       | MinimalTheme => "body { max-width: 40em; }"
       | ProfessionalTheme => "body { font-family: serif; }"
       end;
     base_scripts := fun th =>
       match th with
       | DefaultTheme => "// default"
       | MinimalTheme => "// minimal"
       | ProfessionalTheme => "// professional"
       end |}.

(** A stand-in for the Markdown library: one paragraph around a
    non-empty text, no table of contents, no metadata; the text [boom]
    makes it raise. *)
Definition markdown (text : string) : result MdOutput :=
  if String.eqb text "boom" then
    Raise {| exn_class := "ValueError"; exn_msg := "transform failed" |}
  else
    Ok {| html_body :=
            match text with
            | EmptyString => EmptyString
            | _ => "<p>" ++ text ++ "</p>"
            end;
          toc := EmptyString;
          Meta := [] |}.

(** A directory [docs] with three documents and an image directory. *)
Definition files : store :=
  [ (mk "docs", Dir);
    (mk "docs/empty.md", File "");
    (mk "docs/notes.md", File "hello");
    (mk "docs/bad.md", File "boom");
    (mk "docs/img", Dir);
    (mk "docs/img/p.png", File "Man");
    (mk "docs/a(1", File "Man") ].

End Demo.

(* ================================================================== *)
(** ** Reading the lines the image processor prints *)

Module ImageLog.

(** The line of a successful embedding. *)
Definition is_embedded (d : Image.diagnostic) : bool :=
  match d with
  | Image.Embedded _ _ => true
  | _ => false
  end.

Definition embedded_lines (printed : list Image.diagnostic) : nat :=
  List.length (filter is_embedded printed).

(** The references of a text that the processor looks up: those that
    are neither network locations nor inlined data. *)
Definition local_references (content : string) : list string :=
  filter (fun path => negb (Image.is_remote path))
         (Image.extract_images content).

End ImageLog.

(* ================================================================== *)
(** ** The ways in which a conversion ends *)

Module ConverterCases.
Import Text Exn Pathlib Fs Themes Converter.

Section WithEnvironment.
Context {FS : Type} `{FileSystem FS}.
Variable assets : Assets.
Variable markdown : string -> result MdOutput.

(** The result of the [except] handler. *)
Definition failure_result (o : Path) (e : exn) : ConversionResult :=
  {| success := false;
     output_path := o;
     file_size := 0;
     image_count := 0;
     duration := Measured;
     error_message := Some (exn_msg e) |}.

(** The ways in which [convert] returns. *)
Inductive returned (fs : FS) (src : Path) (theme : string) (ei pm : bool)
    (o : Path) : ConversionResult -> FS -> Prop :=
| returned_missing :
    exists_ fs src = false ->
    returned fs src theme ei pm o
      {| success := false;
         output_path := o;
         file_size := 0;
         image_count := 0;
         duration := NoTime;
         error_message := Some ("文件不存在: " ++ str src) |} fs
| returned_unbuilt e :
    exists_ fs src = true ->
    document assets markdown src theme ei pm fs = (Raise e, fs) ->
    returned fs src theme ei pm o (failure_result o e) fs
| returned_unwritten doc n e fs1 :
    exists_ fs src = true ->
    document assets markdown src theme ei pm fs = (Ok (doc, n), fs) ->
    write_text fs o doc = (fs1, Some e) ->
    returned fs src theme ei pm o (failure_result o e) fs1
| returned_unmeasured doc n e fs1 :
    exists_ fs src = true ->
    document assets markdown src theme ei pm fs = (Ok (doc, n), fs) ->
    write_text fs o doc = (fs1, None) ->
    stat_size fs1 o = Raise e ->
    returned fs src theme ei pm o (failure_result o e) fs1
| returned_converted doc n size fs1 :
    exists_ fs src = true ->
    document assets markdown src theme ei pm fs = (Ok (doc, n), fs) ->
    write_text fs o doc = (fs1, None) ->
    stat_size fs1 o = Ok size ->
    returned fs src theme ei pm o
      {| success := true;
         output_path := o;
         file_size := size;
         image_count := n;
         duration := Measured;
         error_message := None |} fs1.

End WithEnvironment.

End ConverterCases.

(* ================================================================== *)
(** ** StatsTracker *)

Module Stats.
Import Pathlib Converter.

Section WithClock.

(** Sums of floating-point seconds and clock readings are not modelled
    further: a total of seconds is a value that durations are added
    to. *)
Variable Seconds : Type.
Variable add_seconds : Seconds -> Duration -> Seconds.
Variable zero_seconds : Seconds.
Variable Time : Type.

Record ConversionStats : Type := {
  total_files : nat;
  successful : nat;
  failed : nat;
  total_duration : Seconds;
  total_size : nat;
  total_images : nat;
  start_time : Time
}.

(** One entry of [file_records]. *)
Record FileRecord : Type := {
  filename : string;
  record_success : bool;
  record_duration : Duration;
  record_size : nat;
  record_images : nat;
  record_error : option string
}.

Record StatsTracker : Type := {
  stats : ConversionStats;
  file_records : list FileRecord
}.

(** [ConversionStats()] at the clock reading [now] *)
Definition new_stats (now : Time) : ConversionStats :=
  {| total_files := 0;
     successful := 0;
     failed := 0;
     total_duration := zero_seconds;
     total_size := 0;
     total_images := 0;
     start_time := now |}.

(** [StatsTracker()] *)
Definition new_tracker (now : Time) : StatsTracker :=
  {| stats := new_stats now; file_records := [] |}.

Definition file_record (result : ConversionResult) (file_path : Path)
  : FileRecord :=
  {| filename := name file_path;
     record_success := success result;
     record_duration := duration result;
     record_size := file_size result;
     record_images := image_count result;
     record_error :=
       if negb (success result) then error_message result else None |}.

Definition track_result (t : StatsTracker) (result : ConversionResult)
    (file_path : Path) : StatsTracker :=
  let s := stats t in
  {| stats :=
       {| total_files := total_files s + 1;
          successful :=
            if success result then successful s + 1 else successful s;
          failed := if success result then failed s else failed s + 1;
          total_duration := add_seconds (total_duration s) (duration result);
          total_size :=
            if success result then total_size s + file_size result
            else total_size s;
          total_images :=
            if success result then total_images s + image_count result
            else total_images s;
          start_time := start_time s |};
     file_records := (file_records t ++ [file_record result file_path])%list |}.

Definition reset (now : Time) : StatsTracker := new_tracker now.

(** Tracking the results of a run, one after the other. *)
Definition track_all (t : StatsTracker)
    (run : list (ConversionResult * Path)) : StatsTracker :=
  fold_left (fun t rp => track_result t (fst rp) (snd rp)) run t.

End WithClock.

(** The successes of a run, and sums over them. *)
Definition successes (run : list (ConversionResult * Path))
  : list ConversionResult :=
  filter success (map fst run).

Definition sum_of (f : ConversionResult -> nat) (rs : list ConversionResult)
  : nat :=
  fold_right (fun r acc => f r + acc) 0 rs.

End Stats.

(* ================================================================== *)
(** ** BatchProcessor: one file *)

Module Batch.
Import Text Exn Pathlib Fs Themes Converter.

(** The dictionary [_process_file] returns.  Its [size] is the size of
    the output file in KB, the byte count divided by 1024: the record
    keeps the byte count.  Its [duration] is a measured time. *)
Record FileReport : Type := {
  source : string;
  output : string;
  report_success : bool;
  error : option string;
  size_bytes : nat;
  report_duration : Duration;
  report_images : nat
}.

Section WithEnvironment.
Context {FS : Type} `{FileSystem FS}.
Variable assets : Assets.
Variable markdown : string -> result MdOutput.

(** The dictionary of the [except] branch. *)
Definition failed_report (source_path output_path : Path) (e : exn)
  : FileReport :=
  {| source := str source_path;
     output := str output_path;
     report_success := false;
     error := Some (exn_msg e);
     size_bytes := 0;
     report_duration := Measured;
     report_images := 0 |}.

Definition _process_file (fs : FS) (source_path output_path : Path)
    (theme : string) (embed_images process_mermaid : bool)
  : FileReport * FS :=
  match convert assets markdown fs source_path (Some output_path) theme
          embed_images process_mermaid with
  | Returned result fs' =>
      match stat_size fs' output_path with
      | Ok bytes =>
          ({| source := str source_path;
              output := str output_path;
              report_success := success result;
              error := error_message result;
              size_bytes := bytes;
              report_duration := Measured;
              report_images := image_count result |}, fs')
      | Raise e => (failed_report source_path output_path e, fs')
      end
  | Raised e fs' => (failed_report source_path output_path e, fs')
  end.

End WithEnvironment.

End Batch.

(* ================================================================== *)
(** ** The command line: run_conversion *)

Module Cli.
Import Text Exn Pathlib Fs Themes Converter Stats.

(** The parsed arguments that [run_conversion] reads. *)
Record Args : Type := {
  input : string;
  output : option string;
  theme : string;
  recursive : bool;
  no_images : bool;
  no_mermaid : bool;
  stats_flag : bool;
  verbose : bool
}.

Section WithEnvironment.
Context {FS : Type} `{FileSystem FS}.
Variable assets : Assets.
Variable markdown : string -> result MdOutput.
Variable Seconds : Type.
Variable add_seconds : Seconds -> Duration -> Seconds.
Variable zero_seconds : Seconds.
Variable Time : Type.
Variable now : Time.

(** The search for the input files, by [is_file], [is_dir], the scanner
    and [glob], is not modelled: it is a function of the file system and
    the arguments.  So is [mkdir(parents=True, exist_ok=True)], which
    changes the file system and may raise. *)
Variable find_files : FS -> Args -> list Path.
Variable mkdir : FS -> Path -> FS * option exn.

(** [args.output] where it counts as true: given and not empty. *)
Definition given_output (args : Args) : option string :=
  match output args with
  | Some s => if String.eqb s "" then None else Some s
  | None => None
  end.

(** The directory the pages go to, where one is used. *)
Definition output_directory (args : Args) (files : list Path) : option Path :=
  match given_output args with
  | Some s =>
      let output_path := mk s in
      if String.eqb (suffix output_path) ".html"
         && Nat.eqb (List.length files) 1
      then None
      else Some output_path
  | None => None
  end.

(** The output path of one file in the loop. *)
Definition output_for (args : Args) (output_dir : option Path) (total : nat)
    (file_path : Path) : option Path :=
  match given_output args with
  | Some s =>
      if String.eqb (suffix (mk s)) ".html" && Nat.eqb total 1
      then Some (mk s)
      else
        match output_dir with
        | Some d => Some (joinpath d (stem file_path ++ ".html"))
        | None => None
        end
  | None =>
      match output_dir with
      | Some d => Some (joinpath d (stem file_path ++ ".html"))
      | None => None
      end
  end.

(** The loop over the files: the number of successes and the tracker. *)
Fixpoint convert_each (fs : FS) (args : Args) (output_dir : option Path)
    (total : nat) (stats_tracker : StatsTracker Seconds Time)
    (success_count : nat) (files : list Path)
  : outcome FS (nat * StatsTracker Seconds Time) :=
  match files with
  | [] => Returned (success_count, stats_tracker) fs
  | file_path :: rest =>
      let output_path := output_for args output_dir total file_path in
      match convert assets markdown fs file_path output_path (theme args)
              (negb (no_images args)) (negb (no_mermaid args)) with
      | Raised e fs' => Raised e fs'
      | Returned result fs' =>
          let stats_tracker :=
            track_result Seconds add_seconds Time stats_tracker result
              file_path in
          convert_each fs' args output_dir total stats_tracker
            (if success result then success_count + 1 else success_count)
            rest
      end
  end.

Definition status (success_count total : nat) : nat :=
  if Nat.eqb success_count total then 0
  else if Nat.ltb 0 success_count then 2
  else 1.

(** [run_conversion]: the exit status, with the tracker the summary is
    printed from. *)
Definition run_conversion (args : Args) (fs : FS)
  : outcome FS (nat * StatsTracker Seconds Time) :=
  let stats_tracker := new_tracker Seconds zero_seconds Time now in
  let files := find_files fs args in
  match files with
  | [] => Returned (1, stats_tracker) fs
  | _ =>
      let output_dir := output_directory args files in
      let prepared :=
        match output_dir with
        | Some d => mkdir fs d
        | None => (fs, None)
        end in
      match prepared with
      | (fs1, Some e) => Raised e fs1
      | (fs1, None) =>
          let total := List.length files in
          match convert_each fs1 args output_dir total stats_tracker 0 files
          with
          | Raised e fs' => Raised e fs'
          | Returned (success_count, stats_tracker) fs' =>
              Returned (status success_count total, stats_tracker) fs'
          end
      end
  end.

End WithEnvironment.

End Cli.

(* ================================================================== *)
(** ** What a well-formed page is *)

(** The properties of a page that the converter is held to.  These
    definitions are written from the syntax of HTML and from the words
    of the specification, not from the converter. *)

Module Html.
Import Text.

(** Elements without an end tag, and elements whose content is text up
    to their end tag, in which markup is not read. *)
Definition void_elements : list string :=
  ["area"; "base"; "br"; "col"; "embed"; "hr"; "img"; "input"; "link";
   "meta"; "source"; "track"; "wbr"].

Definition raw_elements : list string :=
  ["script"; "style"; "title"; "textarea"].

Definition listed (x : string) (l : list string) : bool :=
  existsb (String.eqb x) l.

(** Where a reader of the page stands: in text, with the elements that
    are open, innermost first; inside a tag, with its text so far;
    inside a raw element, with the text since the last [<], if one was
    met and no [>] since; or after a tag that does not fit. *)
Inductive state : Type :=
| InText (opened : list string)
| InTag (opened : list string) (tag : string)
| InRaw (opened : list string) (element : string) (pending : option string)
| Broken.

Definition is_space (c : ascii) : bool :=
  Ascii.eqb c " " || Ascii.eqb c (ascii_of_nat 10)
  || Ascii.eqb c (ascii_of_nat 9) || Ascii.eqb c (ascii_of_nat 13).

(** The name a tag starts with: its text up to a space or a slash. *)
Fixpoint tag_name (tag : string) : string :=
  match tag with
  | EmptyString => EmptyString
  | String c tag' =>
      if is_space c || Ascii.eqb c "/" then EmptyString
      else String c (tag_name tag')
  end.

(** The end of a tag: an end tag must close the innermost open
    element; a declaration or comment changes nothing; a start tag
    opens its element, unless the element is void. *)
Definition end_of_tag (opened : list string) (tag : string) : state :=
  match tag with
  | String "/" rest =>
      match opened with
      | top :: below =>
          if String.eqb top (tag_name rest) then InText below else Broken
      | [] => Broken
      end
  | String "!" _ => InText opened
  | _ =>
      let element := tag_name tag in
      if String.eqb element "" then Broken
      else if listed element void_elements then InText opened
      else if listed element raw_elements then InRaw opened element None
      else InText (element :: opened)
  end.

Definition step (st : state) (c : ascii) : state :=
  match st with
  | InText opened => if Ascii.eqb c "<" then InTag opened "" else st
  | InTag opened tag =>
      if Ascii.eqb c ">" then end_of_tag opened tag
      else InTag opened (tag ++ String c "")
  | InRaw opened element pending =>
      if Ascii.eqb c "<" then InRaw opened element (Some "")
      else if Ascii.eqb c ">" then
        match pending with
        | Some p =>
            if String.eqb p ("/" ++ element) then InText opened
            else InRaw opened element None
        | None => InRaw opened element None
        end
      else
        InRaw opened element
          match pending with
          | Some p => Some (p ++ String c "")
          | None => None
          end
  | Broken => Broken
  end.

Fixpoint run (st : state) (s : string) : state :=
  match s with
  | EmptyString => st
  | String c s' => run (step st c) s'
  end.





End Html.

(* ================================================================== *)
(** ** Two more stores *)

Module Scenes.
Import Pathlib Fs.



End Scenes.

(* ================================================================== *)
(** * Properties *)

(** ** Facts about the text primitives *)

Module TextFacts.
Import Text.

Lemma append_assoc (a b c : string) : (a ++ b) ++ c = a ++ (b ++ c).
Proof.
  induction a as [|x a IH]; simpl; [reflexivity|]. now rewrite IH.
Qed.

Lemma append_empty_r (a : string) : a ++ "" = a.
Proof.
  induction a as [|x a IH]; simpl; [reflexivity|]. now rewrite IH.
Qed.

Lemma length_append (a b : string) :
  String.length (a ++ b) = String.length a + String.length b.
Proof.
  induction a as [|x a IH]; simpl; [reflexivity|]. now rewrite IH.
Qed.

Lemma startswith_app (p t : string) : startswith (p ++ t) p = true.
Proof.
  induction p as [|x p IH]; simpl; [reflexivity|].
  now rewrite Ascii.eqb_refl.
Qed.

Lemma startswith_split (s p : string) :
  startswith s p = true -> exists t, s = p ++ t.
Proof.
  revert s. induction p as [|x p IH]; intros s Hs; simpl in *.
  - now exists s.
  - destruct s as [|y s]; [discriminate|].
    apply andb_prop in Hs as [Hxy Hp].
    apply Ascii.eqb_eq in Hxy. subst y.
    destruct (IH _ Hp) as [t ->]. now exists t.
Qed.

Lemma drop_app (p t : string) : drop (String.length p) (p ++ t) = t.
Proof.
  induction p as [|x p IH]; simpl; [now destruct t|]. exact IH.
Qed.

Lemma drop_add (n m : nat) (s : string) : drop (n + m) s = drop m (drop n s).
Proof.
  revert s. induction n as [|n IH]; intros s; simpl.
  - reflexivity.
  - destruct s as [|c s]; [now destruct m|]. apply IH.
Qed.

Lemma drop_succ_cons (n : nat) (c : ascii) (s : string) :
  1 <= n -> drop n (String c s) = drop (pred n) s.
Proof.
  destruct n as [|n]; [lia|]. reflexivity.
Qed.

(** A prefix test against [w] followed by [x] succeeds on [b] followed
    by [x] only when [b] itself starts with [w], as soon as [x] does not
    occur in [w]. *)
Lemma startswith_before_stop (x : ascii) (w b r : string) :
  has_char x w = false ->
  startswith (b ++ String x r) (w ++ String x "") = true ->
  startswith b w = true.
Proof.
  revert b. induction w as [|a w IH]; intros b Hx Hs; simpl in *.
  - reflexivity.
  - apply orb_false_elim in Hx as [Hax Hw].
    destruct b as [|y b]; simpl in Hs.
    + apply andb_prop in Hs as [Hs _].
      apply Ascii.eqb_eq in Hs. subst a.
      now rewrite Ascii.eqb_refl in Hax.
    + apply andb_prop in Hs as [Hay Hs]. rewrite Hay. simpl.
      now apply IH.
Qed.

Lemma partition_sound (sep s before after : string) :
  partition sep s = Some (before, after) -> s = before ++ sep ++ after.
Proof.
  revert before. induction s as [|c s IH]; intros before Hp.
  - simpl in Hp. destruct (startswith "" sep) eqn:Hs; [|discriminate].
    injection Hp as <- <-. simpl.
    destruct (startswith_split _ _ Hs) as [t Ht].
    destruct sep; [reflexivity | discriminate].
  - cbn [partition] in Hp.
    destruct (startswith (String c s) sep) eqn:Hs.
    + injection Hp as <- <-. simpl.
      destruct (startswith_split _ _ Hs) as [t Ht]. rewrite Ht.
      now rewrite drop_app.
    + destruct (partition sep s) as [[b a]|] eqn:Hps; [|discriminate].
      injection Hp as <- <-. simpl. f_equal. now apply IH.
Qed.

Lemma partition_tail_none (sep : string) (c : ascii) (s : string) :
  partition sep (String c s) = None -> partition sep s = None.
Proof.
  cbn [partition]. destruct (startswith (String c s) sep); [discriminate|].
  destruct (partition sep s) as [[b a]|]; [discriminate | reflexivity].
Qed.

Lemma partition_finds (sep x y : string) :
  partition sep (x ++ sep ++ y) <> None.
Proof.
  induction x as [|c x IH].
  - simpl. destruct (sep ++ y) eqn:E.
    + simpl. destruct sep; [simpl; discriminate | discriminate].
    + cbn [partition]. rewrite <- E, startswith_app. discriminate.
  - simpl. cbn [partition].
    destruct (startswith (String c (x ++ sep ++ y)) sep); [discriminate|].
    destruct (partition sep (x ++ sep ++ y)) as [[b a]|]; [discriminate|].
    now elim IH.
Qed.

Lemma span_not_sound (x : ascii) (s run rest : string) :
  span_not x s = (run, rest) -> s = run ++ rest /\ has_char x run = false.
Proof.
  revert run. induction s as [|c s IH]; intros run Hsp; simpl in Hsp.
  - injection Hsp as <- <-. now split.
  - destruct (Ascii.eqb c x) eqn:Hc.
    + injection Hsp as <- <-. now split.
    + destruct (span_not x s) as [run' rest'].
      injection Hsp as <- <-.
      destruct (IH _ eq_refl) as [-> Hrun].
      split; [reflexivity|]. simpl. now rewrite Hc.
Qed.

End TextFacts.

(** ** Facts about the scanning engine *)

Module ReFacts.
Import Text TextFacts.

Section Engine.
Context {M : Type}.
Variable match_at : string -> option (M * nat).

Variable matched : M -> string.

(** The pattern is sound: a match spans its own text, which is not
    empty. *)
Hypothesis match_sound :
  forall s m n,
    match_at s = Some (m, n) ->
    s = matched m ++ drop n s /\ 1 <= n.

(** Putting the pieces of a scan back together gives the scanned text. *)
Lemma scan_source (s : string) (k : nat) :
  Re.source_text matched (Re.scan_from match_at k s) = drop k s.
Proof.
  revert k. induction s as [|c s IH]; intros k.
  - now destruct k.
  - destruct k as [|k]; cbn [Re.scan_from].
    + destruct (match_at (String c s)) as [[m n]|] eqn:Hm.
      * destruct (match_sound _ _ _ Hm) as [Hs Hn].
        unfold Re.source_text in *. cbn [map join]. rewrite IH.
        rewrite <- drop_succ_cons with (c := c) by exact Hn.
        now rewrite <- Hs.
      * unfold Re.source_text in *. cbn [map join]. rewrite IH. reflexivity.
    + simpl. apply IH.
Qed.

Lemma finditer_source (s : string) :
  Re.source_text matched (Re.finditer match_at s) = s.
Proof. unfold Re.finditer. now rewrite scan_source. Qed.

Lemma scan_lits_unmatched (s : string) (k : nat) :
  Re.lits_unmatched match_at matched (Re.scan_from match_at k s).
Proof.
  revert k. induction s as [|c s IH]; intros k.
  - exact I.
  - destruct k as [|k]; cbn [Re.scan_from].
    + destruct (match_at (String c s)) as [[m n]|] eqn:Hm.
      * cbn [Re.lits_unmatched]. apply IH.
      * cbn [Re.lits_unmatched]. split; [|apply IH].
        now rewrite scan_source.
    + apply IH.
Qed.

(** Every match of a scan was produced by the pattern. *)
Lemma scan_hits (P : M -> Prop) :
  (forall s m n, match_at s = Some (m, n) -> P m) ->
  forall s k, Forall P (Re.hits (Re.scan_from match_at k s)).
Proof.
  intros HP s. induction s as [|c s IH]; intros k.
  - constructor.
  - destruct k as [|k]; cbn [Re.scan_from].
    + destruct (match_at (String c s)) as [[m n]|] eqn:Hm.
      * cbn [Re.hits]. constructor; [eapply HP; eassumption | apply IH].
      * cbn [Re.hits]. apply IH.
    + apply IH.
Qed.

Lemma scan_from_drop (s : string) (k : nat) :
  Re.scan_from match_at k s = Re.scan_from match_at 0 (drop k s).
Proof.
  revert k. induction s as [|c s IH]; intros k.
  - now destruct k.
  - destruct k as [|k]; [reflexivity|]. cbn [Re.scan_from drop]. apply IH.
Qed.

(** After a match the scan goes on behind it. *)
Lemma findall_hit (s : string) (m : M) (n : nat) :
  s <> "" ->
  match_at s = Some (m, n) ->
  Re.findall match_at s = m :: Re.findall match_at (drop n s).
Proof.
  intros Hne Hm. destruct s as [|c s]; [congruence|].
  destruct (match_sound _ _ _ Hm) as [_ Hn].
  unfold Re.findall, Re.finditer. cbn [Re.scan_from]. rewrite Hm.
  cbn [Re.hits]. rewrite scan_from_drop.
  now rewrite drop_succ_cons by exact Hn.
Qed.

End Engine.

End ReFacts.

(** ** MermaidProcessor: what one rewrite pass leaves behind *)

Module MermaidFacts.
Import Text TextFacts Mermaid.

Lemma fence_pattern_sound (s body : string) (n : nat) :
  pattern s = Some (body, n) -> s = group0 body ++ drop n s /\ 1 <= n.
Proof.
  unfold pattern. intros Hp.
  destruct (startswith s fence_open) eqn:Hs; [|discriminate].
  destruct (startswith_split _ _ Hs) as [t ->].
  rewrite drop_app in Hp.
  destruct (partition fence_close t) as [[b a]|] eqn:Ht; [|discriminate].
  remember (String.length fence_open + String.length b
            + String.length fence_close) as len eqn:Hlen.
  injection Hp as <- <-.
  apply partition_sound in Ht. subst t len.
  split.
  - unfold group0.
    rewrite !drop_add, drop_app, drop_app, drop_app.
    now rewrite !append_assoc.
  - change (String.length fence_open) with 11. lia.
Qed.

(** A match starts with a backtick. *)
Lemma pattern_needs_backtick (c : ascii) (t : string) :
  Ascii.eqb c "`" = false -> pattern (String c t) = None.
Proof.
  intros Hc. unfold pattern.
  change fence_open with (String "`" ("``mermaid" ++ nl)).
  cbn [startswith]. rewrite Ascii.eqb_sym, Hc. reflexivity.
Qed.

Lemma search_skip_plain (p t : string) :
  has_char "`" p = false ->
  Re.search pattern (p ++ t) = Re.search pattern t.
Proof.
  induction p as [|c p IH]; intros Hp; [reflexivity|].
  cbn [has_char] in Hp. apply orb_false_elim in Hp as [Hc Hp].
  cbn [append Re.search]. rewrite (pattern_needs_backtick _ _ Hc).
  now apply IH.
Qed.

(** Inside a body that does not spell the fence word, no match begins:
    the line feed that ends the opening fence cannot come before the one
    that closes the wrapper. *)
Lemma search_skip_body (body t : string) :
  contains body fence_word = false ->
  Re.search pattern (body ++ div_close ++ t)
  = Re.search pattern (div_close ++ t).
Proof.
  induction body as [|c body IH]; intros Hb; [reflexivity|].
  cbn [contains] in Hb. apply orb_false_elim in Hb as [Hhere Hb].
  cbn [append Re.search].
  assert (Hnone : pattern (String c (body ++ div_close ++ t)) = None).
  { unfold pattern.
    destruct (startswith (String c (body ++ div_close ++ t)) fence_open)
      eqn:Hs; [|reflexivity].
    exfalso.
    assert (Hw : startswith (String c body) fence_word = true).
    { apply startswith_before_stop
        with (x := ascii_of_nat 10) (r := "</div>" ++ t);
        [reflexivity | exact Hs]. }
    congruence. }
  rewrite Hnone. now apply IH.
Qed.

Lemma search_skip_wrapper (body t : string) :
  contains body fence_word = false ->
  Re.search pattern (replace_mermaid body ++ t) = Re.search pattern t.
Proof.
  intros Hb. unfold replace_mermaid.
  rewrite !append_assoc.
  rewrite search_skip_plain by reflexivity.
  rewrite search_skip_body by exact Hb.
  now rewrite search_skip_plain by reflexivity.
Qed.

Lemma rewritten_lit (c : ascii) (ps : list (Re.piece string)) :
  rewritten (Re.Lit c :: ps) = String c (rewritten ps).
Proof. reflexivity. Qed.

Lemma rewritten_hit (body : string) (ps : list (Re.piece string)) :
  rewritten (Re.Hit body :: ps) = replace_mermaid body ++ rewritten ps.
Proof. reflexivity. Qed.

Lemma original_lit (c : ascii) (ps : list (Re.piece string)) :
  original (Re.Lit c :: ps) = String c (original ps).
Proof. reflexivity. Qed.

Lemma original_hit (body : string) (ps : list (Re.piece string)) :
  original (Re.Hit body :: ps) = group0 body ++ original ps.
Proof. reflexivity. Qed.

(** A text without the wrapper's opening angle bracket, found at the
    start of the rewritten text, stood at the start of the original. *)
Lemma plain_prefix (w : string) (ps : list (Re.piece string)) :
  has_char "<" w = false ->
  startswith (rewritten ps) w = true ->
  exists ps', rewritten ps = w ++ rewritten ps'
              /\ original ps = w ++ original ps'.
Proof.
  revert ps. induction w as [|a w IH]; intros ps Hw Hs.
  - now exists ps.
  - cbn [has_char] in Hw. apply orb_false_elim in Hw as [Ha Hw].
    destruct ps as [|[c|body] ps].
    + discriminate.
    + rewrite rewritten_lit in *. cbn [startswith] in Hs.
      apply andb_prop in Hs as [Hac Hs].
      apply Ascii.eqb_eq in Hac. subst c.
      destruct (IH _ Hw Hs) as (ps' & Hr & Ho).
      exists ps'. rewrite original_lit, Hr, Ho. now split.
    + exfalso. rewrite rewritten_hit in Hs.
      assert (Hlt : exists r, replace_mermaid body ++ rewritten ps
                              = String "<" r) by (eexists; reflexivity).
      destruct Hlt as [r Hr]. rewrite Hr in Hs. cbn [startswith] in Hs.
      apply andb_prop in Hs as [Hs _]. congruence.
Qed.

(** Where the original has no closing fence, the scan found no block,
    and the rewriter changed nothing. *)
Lemma unclosed_unchanged (ps : list (Re.piece string)) :
  partition fence_close (original ps) = None -> rewritten ps = original ps.
Proof.
  induction ps as [|[c|body] ps IH]; intros Hn.
  - reflexivity.
  - rewrite original_lit in *. rewrite rewritten_lit.
    f_equal. apply IH. eapply partition_tail_none; eassumption.
  - exfalso. rewrite original_hit in Hn. unfold group0 in Hn.
    rewrite !append_assoc in Hn.
    rewrite <- (append_assoc fence_open body) in Hn.
    now apply partition_finds in Hn.
Qed.

(** A character the scan left alone still starts no match after the
    rewrite. *)
Lemma lit_stays_unmatched (c : ascii) (ps : list (Re.piece string)) :
  pattern (String c (original ps)) = None ->
  pattern (String c (rewritten ps)) = None.
Proof.
  intros Ho. unfold pattern.
  destruct (startswith (String c (rewritten ps)) fence_open) eqn:Hs;
    [|reflexivity].
  change fence_open with (String "`" ("``mermaid" ++ nl)) in Hs.
  cbn [startswith] in Hs. apply andb_prop in Hs as [Hc Hs].
  apply Ascii.eqb_eq in Hc. subst c.
  destruct (plain_prefix ("``mermaid" ++ nl) ps eq_refl Hs)
    as (ps' & Hr & Hor).
  rewrite Hr. rewrite Hor in Ho. unfold pattern in Ho.
  change (String "`" (("``mermaid" ++ nl) ++ original ps'))
    with (fence_open ++ original ps') in Ho.
  change (String "`" (("``mermaid" ++ nl) ++ rewritten ps'))
    with (fence_open ++ rewritten ps').
  rewrite startswith_app, drop_app in Ho. rewrite drop_app.
  destruct (partition fence_close (original ps')) as [[b a]|] eqn:Hp;
    [discriminate|].
  now rewrite (unclosed_unchanged _ Hp), Hp.
Qed.

Lemma no_match_after_rewrite (ps : list (Re.piece string)) :
  Re.lits_unmatched pattern group0 ps ->
  Forall (fun body => contains body fence_word = false) (Re.hits ps) ->
  Re.search pattern (rewritten ps) = None.
Proof.
  induction ps as [|[c|body] ps IH]; intros Hl Hb.
  - reflexivity.
  - destruct Hl as [Hc Hl]. rewrite rewritten_lit. cbn [Re.search].
    rewrite (lit_stays_unmatched _ _ Hc). now apply IH.
  - cbn [Re.hits] in Hb. inversion Hb as [|? ? Hbody Hrest]; subst.
    rewrite rewritten_hit, search_skip_wrapper by exact Hbody.
    now apply IH.
Qed.

(** A text without any fenced diagram block is not changed. *)
Lemma process_without_block (content : string) :
  extract_diagrams content = [] -> process content = content.
Proof.
  intros Hn.
  assert (Hsame : forall ps : list (Re.piece string),
             Re.hits ps = [] -> rewritten ps = original ps).
  { induction ps as [|[c|body] ps IH]; intros Hh.
    - reflexivity.
    - rewrite rewritten_lit, original_lit. f_equal. now apply IH.
    - discriminate Hh. }
  unfold process, Re.sub.
  fold (Re.source_text replace_mermaid (Re.finditer pattern content)).
  fold (rewritten (Re.finditer pattern content)).
  rewrite (Hsame _ Hn). unfold original.
  apply (ReFacts.finditer_source pattern group0 fence_pattern_sound).
Qed.

(** C3, amended.  One rewrite pass leaves no fenced diagram block for
    the presence query to find, provided that no diagram body of the
    input spells the fence word (three backticks followed by
    [mermaid]): [has_mermaid (process content) = false] for every such
    [content]. *)
Theorem process_leaves_no_diagram (content : string) :
  Forall (fun body => contains body fence_word = false)
         (extract_diagrams content) ->
  has_mermaid (process content) = false.
Proof.
  intros Hb. unfold has_mermaid, process, Re.sub.
  change (Re.search pattern (rewritten (Re.finditer pattern content)))
    with (Re.search pattern (rewritten (Re.finditer pattern content))).
  fold (Re.source_text replace_mermaid (Re.finditer pattern content)).
  fold (rewritten (Re.finditer pattern content)).
  rewrite no_match_after_rewrite; [reflexivity | | exact Hb].
  apply ReFacts.scan_lits_unmatched. exact fence_pattern_sound.
Qed.

(** The amended C3 at a text with two diagrams. *)
Lemma process_leaves_no_diagram_witness :
  has_mermaid
    (process ("a" ++ nl ++ "```mermaid" ++ nl ++ "graph TD; A-->B;" ++ nl
                ++ "```" ++ nl ++ "b" ++ nl ++ "```mermaid" ++ nl ++ "pie"
                ++ nl ++ "```" ++ nl)) = false.
Proof.
  apply process_leaves_no_diagram.
  vm_compute. repeat constructor.
Defined.

(** C3 as stated fails: a body that carries an opening fence of its own
    meets a closing fence left in the text after the block, and the
    presence query finds a diagram in the rewritten text. *)
Lemma roundtrip_counterexample :
  has_mermaid
    (process ("```mermaid" ++ nl ++ "```mermaid" ++ nl ++ "X" ++ nl ++ "```"
                ++ nl ++ "```")) = true.
Proof. reflexivity. Qed.

End MermaidFacts.

(** ** ImageProcessor: what the pattern matches and what is rewritten *)

Module ImageFacts.
Import Text TextFacts Exn Pathlib Fs Image.

(** What a successful match of the image pattern looks like. *)
Lemma pattern_shape (s : string) (m : ImageReference) (n : nat) :
  pattern s = Some (m, n) ->
  exists rest,
    s = "![" ++ alt_text m ++ "](" ++ image_path m ++ ")" ++ rest
    /\ n = 2 + String.length (alt_text m) + 2
           + String.length (image_path m) + 1
    /\ has_char "]" (alt_text m) = false
    /\ has_char ")" (image_path m) = false
    /\ image_path m <> "".
Proof.
  unfold pattern. intros Hp.
  destruct (startswith s "![") eqn:H1; [|discriminate].
  destruct (startswith_split _ _ H1) as [t ->].
  change (drop 2 ("![" ++ t)) with t in Hp.
  destruct (span_not "]" t) as [alt r1] eqn:Halt.
  destruct (startswith r1 "](") eqn:H2; [|discriminate].
  destruct (startswith_split _ _ H2) as [t2 ->].
  change (drop 2 ("](" ++ t2)) with t2 in Hp.
  destruct (span_not ")" t2) as [path r2] eqn:Hpath.
  destruct (negb (String.eqb path "") && startswith r2 ")") eqn:H3;
    [|discriminate].
  apply andb_prop in H3 as [Hne H3].
  destruct (startswith_split _ _ H3) as [t3 ->].
  remember (2 + String.length alt + 2 + String.length path + 1) as len.
  injection Hp as <- <-. cbn [alt_text image_path].
  apply span_not_sound in Halt as [-> Halt].
  apply span_not_sound in Hpath as [-> Hpath].
  exists t3. repeat split; try assumption.
  apply negb_true_iff, String.eqb_neq in Hne. exact Hne.
Qed.

Lemma image_pattern_sound (s : string) (m : ImageReference) (n : nat) :
  pattern s = Some (m, n) -> s = group0 m ++ drop n s /\ 1 <= n.
Proof.
  intros Hp. destruct (pattern_shape _ _ _ Hp) as (rest & Hs & Hn & _).
  split; [|lia].
  clear Hp. subst n s. unfold group0.
  rewrite !drop_add. cbn [drop append].
  rewrite drop_app. cbn [drop append]. rewrite drop_app. cbn [drop append].
  repeat (rewrite append_assoc; cbn [append]). reflexivity.
Qed.

Lemma span_not_complete (x : ascii) (run rest : string) :
  has_char x run = false ->
  span_not x (run ++ String x rest) = (run, String x rest).
Proof.
  induction run as [|c run IH]; intros Hr; cbn [append span_not].
  - now rewrite Ascii.eqb_refl.
  - cbn [has_char] in Hr. apply orb_false_elim in Hr as [Hc Hr].
    now rewrite Hc, (IH Hr).
Qed.

(** A reference is matched up to the first closing parenthesis after
    its opening one, whatever follows. *)
Lemma pattern_stops_at_first_paren (alt path rest : string) :
  has_char "]" alt = false ->
  has_char ")" path = false ->
  path <> "" ->
  pattern ("![" ++ alt ++ "](" ++ path ++ ")" ++ rest)
  = Some ({| alt_text := alt; image_path := path |},
          2 + String.length alt + 2 + String.length path + 1).
Proof.
  intros Halt Hpath Hne. unfold pattern.
  change (startswith ("![" ++ alt ++ "](" ++ path ++ ")" ++ rest) "![")
    with true.
  change (drop 2 ("![" ++ alt ++ "](" ++ path ++ ")" ++ rest))
    with (alt ++ String "]" ("(" ++ path ++ ")" ++ rest)).
  rewrite (span_not_complete _ _ _ Halt).
  change (startswith (String "]" ("(" ++ path ++ ")" ++ rest)) "](")
    with true.
  change (drop 2 (String "]" ("(" ++ path ++ ")" ++ rest)))
    with (path ++ String ")" rest).
  rewrite (span_not_complete _ _ _ Hpath).
  apply String.eqb_neq in Hne. rewrite Hne. reflexivity.
Qed.

Section WithFileSystem.
Context {FS : Type} `{FileSystem FS}.
Variable fs : FS.

(** References to network locations and inlined data are put back as
    they were written; nothing is counted or printed. *)
Lemma substitute_remote (base_dir : Path)
    (ps : list (Re.piece ImageReference)) (n : nat) :
  Forall (fun m => is_remote (image_path m) = true) (Re.hits ps) ->
  substitute fs base_dir ps n = (Re.source_text group0 ps, n, []).
Proof.
  induction ps as [|[c|m] ps IH]; intros Hr.
  - reflexivity.
  - cbn [substitute]. now rewrite (IH Hr).
  - cbn [Re.hits] in Hr. inversion Hr as [|? ? Hm Hrest]; subst.
    cbn [substitute]. unfold replace_image. rewrite Hm.
    now rewrite (IH Hrest).
Qed.

(** C6.  When every image reference of the text points to a network
    location ([http://], [https://]) or carries inlined data ([data:]),
    [process] returns the text unchanged and an image count of 0 (and
    prints nothing). *)
Theorem remote_references_untouched (content : string) (base_dir : Path) :
  Forall (fun path => is_remote path = true) (extract_images content) ->
  process fs content base_dir = (content, 0, []).
Proof.
  intros Hr. unfold process, extract_images, Re.findall in *.
  apply Forall_map in Hr.
  rewrite (substitute_remote _ _ _ Hr).
  now rewrite (ReFacts.finditer_source pattern group0 image_pattern_sound).
Qed.







End WithFileSystem.

(** C10, amended.  Every reference the image pattern matches has an alt
    text without a closing bracket and a non-empty path without a
    closing parenthesis; a reference written with a closing parenthesis
    inside its path is matched up to that first parenthesis (and the
    shortened reference is then handled like any other); and a text in
    which the pattern matches nothing is returned unchanged, with count 0
    and nothing printed. *)
Theorem matches_exclude_closers (content : string) :
  Forall (fun m => has_char "]" (alt_text m) = false
                   /\ has_char ")" (image_path m) = false
                   /\ image_path m <> "")
         (Re.findall pattern content)
  /\ (forall alt path rest,
        has_char "]" alt = false ->
        has_char ")" path = false ->
        path <> "" ->
        Re.findall pattern ("![" ++ alt ++ "](" ++ path ++ ")" ++ rest)
        = {| alt_text := alt; image_path := path |}
            :: Re.findall pattern rest)
  /\ (forall (FS : Type) (H : FileSystem FS) (fs : FS) (base_dir : Path),
        Re.findall pattern content = [] ->
        process fs content base_dir = (content, 0, [])).
Proof.
  split; [|split].
  - unfold Re.findall, Re.finditer. apply ReFacts.scan_hits.
    intros s m n Hp.
    destruct (pattern_shape _ _ _ Hp) as (_ & _ & _ & Ha & Hb & Hc).
    now repeat split.
  - intros alt path rest Ha Hp Hne.
    assert (Hs : "![" ++ alt ++ "](" ++ path ++ ")" ++ rest <> "")
      by discriminate.
    rewrite (ReFacts.findall_hit pattern group0 image_pattern_sound _ _ _ Hs
               (pattern_stops_at_first_paren _ _ rest Ha Hp Hne)).
    do 2 f_equal.
    rewrite !drop_add. cbn [drop append].
    rewrite drop_app. cbn [drop append]. rewrite drop_app. reflexivity.
  - intros FS H fs base_dir Hnone. unfold process.
    rewrite substitute_remote.
    + now rewrite (ReFacts.finditer_source pattern group0 image_pattern_sound).
    + unfold Re.findall in Hnone. rewrite Hnone. constructor.
Qed.

(** The amended C10 at a reference whose path carries a closing
    parenthesis: it is matched with the path cut there. *)
Lemma matches_exclude_closers_witness :
  Re.findall pattern ("![x](a(1" ++ ")" ++ ".png)")
  = [{| alt_text := "x"; image_path := "a(1" |}]
  /\ process Demo.files "no image here" (mk "docs")
     = ("no image here", 0, []).
Proof.
  split.
  - apply (proj1 (proj2 (matches_exclude_closers "")) "x" "a(1" ".png)");
      [reflexivity | reflexivity | discriminate].
  - apply (proj2 (proj2 (matches_exclude_closers "no image here"))).
    reflexivity.
Defined.

(** C10 as stated fails: the reference below has a closing parenthesis
    in its path, yet it is matched up to that parenthesis; with a file of
    that shortened name in the base directory the text is rewritten, the
    image is counted and a line is printed. *)
Lemma paren_in_path_counterexample :
  process Demo.files "![x](a(1).png)" (mk "docs")
  = ("![x](data:image/png;base64,TWFu).png)", 1, [Embedded "a(1" 3]).
Proof. reflexivity. Qed.

(** C6 at a text with one reference of each passed-through kind. *)
Lemma remote_references_untouched_witness :
  process Demo.files
    "![a](http://x/y.png) ![b](https://z/q.gif) ![c](data:image/png;base64,TWFu)"
    (mk "docs")
  = ("![a](http://x/y.png) ![b](https://z/q.gif) ![c](data:image/png;base64,TWFu)",
     0, []).
Proof.
  apply remote_references_untouched.
  vm_compute. repeat constructor.
Defined.


End ImageFacts.

(** ** Reading a page tag by tag *)

Module HtmlFacts.
Import Text TextFacts Themes Html.











Section WithAssets.
Variable assets : Assets.



End WithAssets.

End HtmlFacts.

(** ** Themes and the converter *)

Module ConverterFacts.
Import Text TextFacts Exn Pathlib Fs Themes Converter.

Lemma append_same_inv (a b : string) : a ++ b = a -> b = "".
Proof.
  induction a as [|c a IH]; cbn [append]; intros Hab; [exact Hab|].
  injection Hab as Hab. now apply IH.
Qed.

Lemma get_theme_unknown (name : string) :
  ~ In name list_themes -> get_theme name = DefaultTheme.
Proof.
  intros Hn. unfold get_theme, themes. cbn [Image.dict_get].
  destruct (String.eqb_spec "default" name) as [<-|_].
  { elim Hn. now left. }
  destruct (String.eqb_spec "minimal" name) as [<-|_].
  { elim Hn. right. now left. }
  destruct (String.eqb_spec "professional" name) as [<-|_].
  { elim Hn. right. right. now left. }
  reflexivity.
Qed.

Section WithEnvironment.
Context {FS : Type} `{FileSystem FS}.
Variable assets : Assets.
Variable markdown : string -> result MdOutput.

(** Two theme names that select the same class convert alike. *)
Lemma convert_theme_ext (t1 t2 : string) :
  get_theme t1 = get_theme t2 ->
  forall fs src out ei pm,
    convert assets markdown fs src out t1 ei pm
    = convert assets markdown fs src out t2 ei pm.
Proof.
  intros Ht fs src out ei pm.
  unfold convert, attempt, document,
    _create_html_document.
  now rewrite Ht.
Qed.

(** Building the document reads files and writes none. *)
Lemma document_keeps_fs (src : Path) (theme : string) (ei pm : bool)
    (fs : FS) :
  snd (document assets markdown src theme ei pm fs) = fs.
Proof.
  unfold document, rbind, lift, ret.
  destruct (read_text fs src) as [text|e]; [|reflexivity].
  destruct (rewrite fs src text ei pm) as [md_content n].
  destruct (markdown md_content) as [md|e]; [|reflexivity].
  destruct (resolve_title (Meta md) src) as [title|e]; reflexivity.
Qed.

(** The document carries the page of the selected theme, rendered with
    the [process_mermaid] toggle as its diagram flag. *)
Lemma document_page (src : Path) (theme : string) (ei pm : bool) (fs fs' : FS)
    (doc : string) (n : nat) :
  document assets markdown src theme ei pm fs = (Ok (doc, n), fs') ->
  fs' = fs
  /\ exists body toc_html title,
       doc = page_text
               (render_page assets (get_theme theme) body toc_html title n pm).
Proof.
  intros Hd. split.
  - pose proof (document_keeps_fs src theme ei pm fs) as Hk.
    rewrite Hd in Hk. exact Hk.
  - revert Hd. unfold document, rbind, lift, ret.
    destruct (read_text fs src) as [text|e]; [|discriminate].
    destruct (rewrite fs src text ei pm) as [md_content k].
    destruct (markdown md_content) as [md|e]; [|discriminate].
    destruct (resolve_title (Meta md) src) as [title|e]; [|discriminate].
    intros Hd. injection Hd as <- <- _.
    now exists (html_body md), (toc md), title.
Qed.

(** When no output path can be named, the handler itself raises and the
    exception leaves [convert]. *)
Lemma convert_escapes (fs : FS) (src : Path) (out : option Path)
    (theme : string) (ei pm : bool) (e0 : exn) :
  output_or_default src out = Raise e0 ->
  convert assets markdown fs src out theme ei pm = Raised e0 fs.
Proof.
  intros Ho. unfold convert, attempt, on_exception.
  destruct (negb (exists_ fs src)).
  - unfold rbind, lift. rewrite Ho. cbn [bind]. reflexivity.
  - unfold rbind at 1.
    pose proof (document_keeps_fs src theme ei pm fs) as Hk.
    destruct (document assets markdown src theme ei pm fs) as [[[doc n]|e] fs0];
      cbn [snd] in Hk; subst fs0.
    + unfold rbind, lift. rewrite Ho. cbn [bind]. reflexivity.
    + rewrite Ho. reflexivity.
Qed.

(** When an output path can be named, [convert] returns a result for
    that path, whatever happens in the pipeline. *)
Lemma convert_returns (fs : FS) (src : Path) (out : option Path)
    (theme : string) (ei pm : bool) (o : Path) :
  output_or_default src out = Ok o ->
  exists r fs', convert assets markdown fs src out theme ei pm = Returned r fs'
                /\ output_path r = o.
Proof.
  intros Ho. unfold convert, on_exception. rewrite Ho. cbn [bind].
  destruct (attempt assets markdown src out theme ei pm fs) as [[r|e] fs'] eqn:Ha.
  - exists r, fs'. split; [reflexivity|].
    revert Ha. unfold attempt.
    destruct (negb (exists_ fs src)).
    + unfold rbind, lift, ret. rewrite Ho. intros Ha.
      now injection Ha as <- _.
    + unfold rbind at 1.
      destruct (document assets markdown src theme ei pm fs) as [[[doc n]|e] fs0];
        [|discriminate].
      unfold rbind, lift, ret. rewrite Ho.
      destruct (write_text fs0 o doc) as [fs1 [e|]]; [discriminate|].
      destruct (stat_size fs1 o) as [size|e]; [|discriminate].
      intros Ha. now injection Ha as <- _.
  - eexists _, fs'. split; reflexivity.
Qed.


(** C7.  Converting a source that does not exist returns a failed
    result whose message names the source location, and leaves the file
    system as it was: nothing is written at the destination. *)
Theorem missing_source_reported (fs : FS) (src : Path) (out : option Path)
    (theme : string) (ei pm : bool) :
  exists_ fs src = false ->
  exists o,
    output_or_default src out = Ok o
    /\ convert assets markdown fs src out theme ei pm
       = Returned {| success := false;
                     output_path := o;
                     file_size := 0;
                     image_count := 0;
                     duration := NoTime;
                     error_message :=
                       Some ("文件不存在: " ++ str src) |} fs.
Proof.
  intros Hex.
  assert (Ho : exists o, output_or_default src out = Ok o).
  { destruct out as [p|]; [now exists p|].
    cbn [output_or_default]. unfold with_suffix.
    destruct (String.eqb_spec (name src) "") as [Hn|_]; [|eauto].
    rewrite (anchor_exists fs src Hn) in Hex. discriminate. }
  destruct Ho as [o Ho]. exists o. split; [exact Ho|].
  unfold convert, attempt. rewrite Hex. cbn [negb].
  unfold rbind, lift, ret. now rewrite Ho.
Qed.

(** C8.  A theme name outside the recognised set selects the default
    theme: the document is built from the same style sheet and script,
    and conversion gives the same outcome, as with the name [default];
    selection never fails. *)
Theorem unknown_theme_falls_back (name : string) :
  ~ In name list_themes ->
  get_theme name = DefaultTheme
  /\ (forall body toc_html title n flag,
        _create_html_document assets body toc_html title name n flag
        = _create_html_document assets body toc_html title "default" n flag)
  /\ (forall fs src out ei pm,
        convert assets markdown fs src out name ei pm
        = convert assets markdown fs src out "default" ei pm).
Proof.
  intros Hn. pose proof (get_theme_unknown _ Hn) as Ht.
  split; [exact Ht|]. split.
  - intros. unfold _create_html_document. now rewrite Ht.
  - intros. apply convert_theme_ext. now rewrite Ht.
Qed.


(** C2, amended.  In every successful conversion the script block of the
    written page is the theme's own script followed by the diagram
    loader exactly when the [process_mermaid] toggle is on, and the
    theme's own script alone exactly when it is off; whether the
    rewritten text holds a diagram block is not consulted. *)
Theorem loader_follows_toggle (fs fs' : FS) (src : Path) (out : option Path)
    (theme : string) (ei pm : bool) (r : ConversionResult) :
  convert assets markdown fs src out theme ei pm = Returned r fs' ->
  success r = true ->
  exists body toc_html title,
    let page :=
      render_page assets (get_theme theme) body toc_html title
        (image_count r) pm in
    write_text fs (output_path r) (page_text page) = (fs', None)
    /\ (page_scripts page
        = base_scripts assets (get_theme theme) ++ Mermaid.get_mermaid_script
        <-> pm = true)
    /\ (page_scripts page = base_scripts assets (get_theme theme)
        <-> pm = false).
Proof.
  unfold convert, on_exception. intros Hc Hs.
  destruct (attempt assets markdown src out theme ei pm fs)
    as [[r0|e] fs0] eqn:Ha.
  2:{ destruct (output_or_default src out); cbn [bind] in Hc;
        [|discriminate].
      injection Hc as <- _. discriminate Hs. }
  injection Hc as -> ->.
  revert Ha. unfold attempt.
  destruct (negb (exists_ fs src)).
  { unfold rbind, lift, ret.
    destruct (output_or_default src out); [|discriminate].
    intros Ha. injection Ha as <- _. discriminate Hs. }
  unfold rbind at 1.
  destruct (document assets markdown src theme ei pm fs)
    as [[[doc n]|e] fs0] eqn:Hd; [|discriminate].
  destruct (document_page _ _ _ _ _ _ _ _ Hd)
    as (-> & body & toc_html & title & ->).
  unfold rbind, lift, ret.
  destruct (output_or_default src out) as [o|e]; [|discriminate].
  destruct (write_text fs o _) as [fs1 [e|]] eqn:Hw; [discriminate|].
  destruct (stat_size fs1 o) as [size|e]; [|discriminate].
  intros Ha. injection Ha as <- <-. cbn [output_path image_count].
  exists body, toc_html, title. cbn zeta.
  split; [exact Hw|].
  unfold render_page, get_scripts. cbn [page_scripts].
  destruct pm;
    (split; split; intros Heq; try reflexivity; try discriminate Heq;
     exfalso).
  - apply append_same_inv in Heq. discriminate Heq.
  - symmetry in Heq. apply append_same_inv in Heq. discriminate Heq.
Qed.

(** C1 fails on the code: for the source [.] (the current directory)
    and no output path, the exception handler of [convert] itself raises
    when it names the default output path, so a [ValueError] leaves
    [convert]; a batch that meets this source is aborted by it. *)
Theorem convert_raises_on_nameless_source (fs : FS) (theme : string)
    (ei pm : bool) :
  let e := {| exn_class := "ValueError";
              exn_msg := "PosixPath('.') has an empty name" |} in
  convert assets markdown fs (mk ".") None theme ei pm = Raised e fs
  /\ forall rest,
       convert_batch assets markdown fs (mk "." :: rest) None theme ei pm
       = Raised e fs.
Proof.
  intros e.
  assert (Hc : convert assets markdown fs (mk ".") None theme ei pm
               = Raised e fs) by (now apply convert_escapes).
  split; [exact Hc|].
  intros rest. unfold convert_batch. cbn [batch_loop]. now rewrite Hc.
Qed.

(** Sources with a name, or an output directory, make a batch return
    one result per request, in request order. *)
Lemma batch_loop_returns (paths : list Path) (output_dir : option Path)
    (theme : string) (ei pm : bool) :
  (output_dir = None -> Forall (fun src => name src <> "") paths) ->
  forall fs results,
  exists rs fs',
    batch_loop assets markdown fs results paths output_dir theme ei pm
    = Returned (results ++ rs)%list fs'
    /\ Forall2 (fun src r =>
                  output_or_default src
                    match output_dir with
                    | Some d => Some (joinpath d (stem src ++ ".html"))
                    | None => None
                    end = Ok (output_path r)) paths rs.
Proof.
  intros Hnames. induction paths as [|src paths IH]; intros fs results.
  - exists [], fs. rewrite app_nil_r. split; [reflexivity | constructor].
  - cbn [batch_loop].
    set (out := match output_dir with
                | Some d => Some (joinpath d (stem src ++ ".html"))
                | None => None
                end).
    assert (Ho : exists o, output_or_default src out = Ok o).
    { subst out. destruct output_dir as [d|]; [eexists; reflexivity|].
      specialize (Hnames eq_refl). inversion Hnames as [|? ? Hn _]; subst.
      cbn [output_or_default]. unfold with_suffix.
      destruct (String.eqb_spec (name src) ""); [contradiction | eauto]. }
    destruct Ho as [o Ho].
    destruct (convert_returns fs src out theme ei pm o Ho)
      as (r & fs1 & Hc & Hr).
    rewrite Hc.
    assert (Hrest : output_dir = None ->
                    Forall (fun src => name src <> "") paths).
    { intros Hd. specialize (Hnames Hd). now inversion Hnames. }
    destruct (IH Hrest fs1 (results ++ [r])%list) as (rs & fs' & Hb & Hall).
    exists (r :: rs), fs'. split.
    + rewrite Hb. now rewrite <- app_assoc.
    + constructor; [now rewrite Hr | exact Hall].
Qed.

End WithEnvironment.

(** The amended C2 at a conversion with the toggle on. *)
Lemma loader_follows_toggle_witness :
  exists r fs' body toc_html title,
    convert Demo.assets Demo.markdown Demo.files (mk "docs/notes.md") None
      "default" true true = Returned r fs'
    /\ write_text Demo.files (output_path r)
         (page_text (render_page Demo.assets DefaultTheme body toc_html title
                       (image_count r) true)) = (fs', None).
Proof.
  destruct (convert Demo.assets Demo.markdown Demo.files (mk "docs/notes.md")
              None "default" true true) as [r fs'|e fs'] eqn:Hc;
    [|vm_compute in Hc; discriminate].
  assert (Hs : success r = true)
    by (vm_compute in Hc; injection Hc as <- _; reflexivity).
  destruct (loader_follows_toggle Demo.assets Demo.markdown _ _ _ _ _ _ _ _
              Hc Hs) as (body & toc_html & title & Hw & _).
  now exists r, fs', body, toc_html, title.
Defined.

(** C2 as stated fails: with the toggle on, a text without any diagram
    block is rewritten to a text in which the presence query finds
    nothing, and yet the script block of the page ends with the diagram
    loader. *)
Lemma loader_without_diagram_counterexample :
  Mermaid.has_mermaid
    (fst (rewrite Demo.files (mk "docs/notes.md") "hello" true true)) = false
  /\ document Demo.assets Demo.markdown (mk "docs/notes.md") "default"
       true true Demo.files
     = (Ok (page_text
              {| page_title := "notes";
                 page_styles := "body { margin: 0; }";
                 page_header := _create_header "notes" 0;
                 page_toc := "";
                 page_content := "<p>hello</p>";
                 page_footer := _create_footer;
                 page_scripts := "// default" ++ Mermaid.get_mermaid_script |},
            0), Demo.files).
Proof. split; vm_compute; reflexivity. Qed.

(** C7 at a source that is not in the store. *)
Lemma missing_source_reported_witness :
  exists o,
    output_or_default (mk "docs/nothere.md") None = Ok o
    /\ convert Demo.assets Demo.markdown Demo.files (mk "docs/nothere.md")
         None "default" true true
       = Returned {| success := false;
                     output_path := o;
                     file_size := 0;
                     image_count := 0;
                     duration := NoTime;
                     error_message :=
                       Some ("文件不存在: " ++ str (mk "docs/nothere.md")) |}
           Demo.files.
Proof.
  apply (missing_source_reported Demo.assets Demo.markdown Demo.files
           (mk "docs/nothere.md") None "default" true true).
  reflexivity.
Defined.

(** C8 at the name [nonexistent]. *)
Lemma unknown_theme_falls_back_witness :
  get_theme "nonexistent" = DefaultTheme
  /\ convert Demo.assets Demo.markdown Demo.files (mk "docs/notes.md") None
       "nonexistent" true true
     = convert Demo.assets Demo.markdown Demo.files (mk "docs/notes.md") None
         "default" true true.
Proof.
  destruct (unknown_theme_falls_back Demo.assets Demo.markdown "nonexistent")
    as (Ht & _ & Hc).
  - cbn [list_themes In]. intros [Hd|[Hm|[Hp|[]]]]; discriminate.
  - split; [exact Ht | apply Hc].
Defined.



(** Scenario E: a failure inside the transform stage does not abort the
    batch. *)
Example batch_scenario_E :
  exists r0 r1 r2 fs',
    convert_batch Demo.assets Demo.markdown Demo.files
      [mk "docs/notes.md"; mk "docs/bad.md"; mk "docs/empty.md"]
      None "default" true true
    = Returned [r0; r1; r2] fs'
    /\ success r0 = true /\ success r1 = false /\ success r2 = true
    /\ error_message r1 = Some "transform failed".
Proof.
  vm_compute. do 4 eexists. repeat split; reflexivity.
Qed.

(** The same batch with the current directory in second place is
    aborted: no list of results is returned. *)
Example batch_aborted :
  exists fs',
    convert_batch Demo.assets Demo.markdown Demo.files
      [mk "docs/notes.md"; mk "."; mk "docs/empty.md"]
      None "default" true true
    = Raised {| exn_class := "ValueError";
                exn_msg := "PosixPath('.') has an empty name" |} fs'.
Proof.
  vm_compute. eexists. reflexivity.
Qed.

End ConverterFacts.

(* ================================================================== *)
(** * Further properties *)

(** ** The scanning engine: searching, finding all, substituting *)

Module ReExtras.
Import Text TextFacts.

Section Engine.
Context {M : Type}.
Variable match_at : string -> option (M * nat).

Lemma findall_lit (c : ascii) (s : string) :
  match_at (String c s) = None ->
  Re.findall match_at (String c s) = Re.findall match_at s.
Proof.
  intros Hm. unfold Re.findall, Re.finditer. cbn [Re.scan_from].
  now rewrite Hm.
Qed.

Lemma sub_lit (repl : M -> string) (c : ascii) (s : string) :
  match_at (String c s) = None ->
  Re.sub match_at repl (String c s) = String c (Re.sub match_at repl s).
Proof.
  intros Hm. unfold Re.sub, Re.finditer. cbn [Re.scan_from].
  now rewrite Hm.
Qed.

Lemma sub_hit (repl : M -> string) (s : string) (m : M) (n : nat) :
  s <> "" -> 1 <= n ->
  match_at s = Some (m, n) ->
  Re.sub match_at repl s = repl m ++ Re.sub match_at repl (drop n s).
Proof.
  intros Hne Hn Hm. destruct s as [|c s]; [congruence|].
  unfold Re.sub, Re.finditer. cbn [Re.scan_from]. rewrite Hm.
  cbn [map join]. rewrite ReFacts.scan_from_drop.
  now rewrite drop_succ_cons by exact Hn.
Qed.

(** The leftmost search finds a match exactly when the list of all
    matches is not empty. *)
Lemma search_none_findall (s : string) :
  match_at "" = None ->
  (Re.search match_at s = None <-> Re.findall match_at s = []).
Proof.
  intros Hempty. induction s as [|c s IH].
  - cbn [Re.search]. rewrite Hempty. now split.
  - cbn [Re.search].
    destruct (match_at (String c s)) as [[m n]|] eqn:Hm.
    + unfold Re.findall, Re.finditer. cbn [Re.scan_from]. rewrite Hm.
      cbn [Re.hits]. split; discriminate.
    + now rewrite (findall_lit _ _ Hm).
Qed.

End Engine.

End ReExtras.

(** ** MermaidProcessor: what is rewritten and what is left alone *)

Module MermaidExtras.
Import Text TextFacts Mermaid.

Lemma pattern_needs_fence (s : string) :
  startswith s fence_open = false -> pattern s = None.
Proof. intros Hs. unfold pattern. now rewrite Hs. Qed.

(** X1.  A text in which the opening fence (three backticks, [mermaid],
    line feed) does not occur, such as a text whose fenced blocks are in
    other languages, is returned unchanged; no diagram is extracted from
    it and the presence query answers false. *)
Theorem text_without_fence_untouched (content : string) :
  contains content fence_open = false ->
  process content = content
  /\ extract_diagrams content = []
  /\ has_mermaid content = false.
Proof.
  induction content as [|c s IH]; intros Hc.
  - now repeat split.
  - cbn [contains] in Hc. apply orb_false_elim in Hc as [Hhere Hrest].
    destruct (IH Hrest) as (Hp & He & Hh).
    pose proof (pattern_needs_fence _ Hhere) as Hm.
    unfold process, extract_diagrams, has_mermaid in *.
    rewrite (ReExtras.sub_lit pattern _ _ _ Hm),
      (ReExtras.findall_lit pattern _ _ Hm).
    cbn [Re.search]. rewrite Hm, Hp. now repeat split.
Qed.

(** X2.  The presence query and the extraction agree: [has_mermaid]
    answers true exactly when [extract_diagrams] returns at least one
    body. *)
Theorem has_mermaid_iff_extracted (content : string) :
  has_mermaid content = true <-> extract_diagrams content <> [].
Proof.
  unfold has_mermaid, extract_diagrams.
  pose proof (ReExtras.search_none_findall pattern content eq_refl) as Hs.
  destruct (Re.search pattern content) as [m|].
  - split; [|reflexivity]. intros _ Hnil.
    apply Hs in Hnil. discriminate.
  - split; [discriminate|]. intros Hne. elim Hne. now apply Hs.
Qed.

Lemma rewritten_length (ps : list (Re.piece string)) :
  String.length (rewritten ps)
  = String.length (original ps) + 14 * List.length (Re.hits ps).
Proof.
  induction ps as [|[c|body] ps IH].
  - reflexivity.
  - rewrite MermaidFacts.rewritten_lit, MermaidFacts.original_lit.
    cbn [String.length Re.hits]. now rewrite IH.
  - rewrite MermaidFacts.rewritten_hit, MermaidFacts.original_hit.
    unfold replace_mermaid, group0.
    rewrite !length_append, IH. cbn [Re.hits List.length].
    change (String.length div_open) with 22.
    change (String.length div_close) with 7.
    change (String.length fence_open) with 11.
    change (String.length fence_close) with 4.
    lia.
Qed.

(** X3.  Every diagram block that is rewritten makes the text 14
    characters longer (the wrapper has 29 characters, the two fences
    15); so the text is returned unchanged exactly when it holds no
    diagram block. *)
Theorem process_length (content : string) :
  String.length (process content)
  = String.length content + 14 * List.length (extract_diagrams content)
  /\ (process content = content <-> extract_diagrams content = []).
Proof.
  assert (Hlen : String.length (process content)
                 = String.length content
                   + 14 * List.length (extract_diagrams content)).
  { unfold process, Re.sub, extract_diagrams, Re.findall.
    fold (Re.source_text replace_mermaid (Re.finditer pattern content)).
    fold (rewritten (Re.finditer pattern content)).
    rewrite rewritten_length. unfold original.
    now rewrite (ReFacts.finditer_source pattern group0
                   MermaidFacts.fence_pattern_sound). }
  split; [exact Hlen|]. split.
  - intros Heq. rewrite Heq in Hlen.
    destruct (extract_diagrams content); [reflexivity|].
    cbn [List.length] in Hlen. lia.
  - apply MermaidFacts.process_without_block.
Qed.

(** The closing fence that ends a body without backticks is the first
    one. *)
Lemma partition_plain_body (body post : string) :
  has_char "`" body = false ->
  partition fence_close (body ++ fence_close ++ post) = Some (body, post).
Proof.
  induction body as [|c body IH]; intros Hb.
  - reflexivity.
  - cbn [has_char] in Hb. apply orb_false_elim in Hb as [Hc Hb].
    cbn [append partition].
    assert (Hs : startswith (String c (body ++ fence_close ++ post))
                   fence_close = false).
    { change fence_close with (String (ascii_of_nat 10) "```").
      cbn [startswith].
      destruct (Ascii.eqb (ascii_of_nat 10) c); [|reflexivity].
      cbn [andb]. destruct body as [|d body].
      - reflexivity.
      - cbn [append startswith]. cbn [has_char] in Hb.
        apply orb_false_elim in Hb as [Hd _].
        now rewrite Ascii.eqb_sym, Hd. }
    rewrite Hs. now rewrite (IH Hb).
Qed.

(** X4.  A diagram block whose body holds no backtick, after a text
    that holds none either, is wrapped with its body as written, and the
    rewriting goes on behind the block: the text before it is kept, the
    body is the first diagram extracted, and what follows is processed
    as a text of its own. *)
Theorem block_wrapped_verbatim (pre body post : string) :
  has_char "`" pre = false ->
  has_char "`" body = false ->
  process (pre ++ fence_open ++ body ++ fence_close ++ post)
  = pre ++ div_open ++ body ++ div_close ++ process post
  /\ extract_diagrams (pre ++ fence_open ++ body ++ fence_close ++ post)
     = body :: extract_diagrams post.
Proof.
  intros Hpre Hbody.
  assert (Hm : pattern (fence_open ++ body ++ fence_close ++ post)
               = Some (body, String.length fence_open + String.length body
                             + String.length fence_close)).
  { unfold pattern. rewrite startswith_app, drop_app.
    now rewrite (partition_plain_body _ _ Hbody). }
  assert (Hdrop : drop (String.length fence_open + String.length body
                        + String.length fence_close)
                       (fence_open ++ body ++ fence_close ++ post) = post).
  { now rewrite !drop_add, !drop_app. }
  assert (Hne : fence_open ++ body ++ fence_close ++ post <> "")
    by discriminate.
  assert (Hn : 1 <= String.length fence_open + String.length body
                    + String.length fence_close)
    by (change (String.length fence_open) with 11; lia).
  induction pre as [|c pre IH].
  - cbn [append]. unfold process, extract_diagrams. split.
    + rewrite (ReExtras.sub_hit pattern _ _ _ _ Hne Hn Hm).
      rewrite Hdrop. unfold replace_mermaid. now rewrite !append_assoc.
    + rewrite (ReFacts.findall_hit pattern group0
                 MermaidFacts.fence_pattern_sound _ _ _ Hne Hm).
      now rewrite Hdrop.
  - cbn [has_char] in Hpre. apply orb_false_elim in Hpre as [Hc Hpre].
    destruct (IH Hpre) as [Hp He].
    pose proof (MermaidFacts.pattern_needs_backtick c
                  (pre ++ fence_open ++ body ++ fence_close ++ post) Hc)
      as Hnone.
    cbn [append]. unfold process, extract_diagrams in *.
    rewrite (ReExtras.sub_lit pattern _ _ _ Hnone),
      (ReExtras.findall_lit pattern _ _ Hnone).
    now rewrite Hp, He.
Qed.

(** X1 at a text with a fenced block in another language. *)
Lemma text_without_fence_untouched_witness :
  process ("```python" ++ nl ++ "print(1)" ++ nl ++ "```")
  = "```python" ++ nl ++ "print(1)" ++ nl ++ "```"
  /\ extract_diagrams ("```python" ++ nl ++ "print(1)" ++ nl ++ "```") = []
  /\ has_mermaid ("```python" ++ nl ++ "print(1)" ++ nl ++ "```") = false.
Proof.
  apply text_without_fence_untouched. reflexivity.
Defined.

(** X4 at the block of scenario B, between two lines of text. *)
Lemma block_wrapped_verbatim_witness :
  process (("# Flow" ++ nl) ++ fence_open ++ "graph TD; A-->B;"
             ++ fence_close ++ nl ++ "done")
  = ("# Flow" ++ nl) ++ div_open ++ "graph TD; A-->B;" ++ div_close
      ++ process (nl ++ "done")
  /\ extract_diagrams (("# Flow" ++ nl) ++ fence_open ++ "graph TD; A-->B;"
                         ++ fence_close ++ nl ++ "done")
     = "graph TD; A-->B;" :: extract_diagrams (nl ++ "done").
Proof.
  apply block_wrapped_verbatim; reflexivity.
Defined.

End MermaidExtras.

(** ** ImageProcessor: counting and printing *)

Module ImageExtras.
Import Text TextFacts Exn Pathlib Fs Image ImageLog.

Section WithFileSystem.
Context {FS : Type} `{FileSystem FS}.
Variable fs : FS.

(** A data URL is passed through by the processor. *)
Lemma data_url_is_remote (mime encoded : string) :
  is_remote ("data:" ++ mime ++ ";base64," ++ encoded) = true.
Proof. reflexivity. Qed.

(** What the callback can do with one reference: put it back as
    written, or embed it, count it and print the line of success; a
    network or inlined reference prints nothing, any other prints one
    line. *)
Lemma replace_image_outcome (base_dir : Path) (m : ImageReference) (k : nat) :
  forall r k' d,
    replace_image fs base_dir m k = (r, k', d) ->
    (r = group0 m /\ k' = k /\ embedded_lines d = 0
     \/ (exists url, r = "![" ++ alt_text m ++ "](" ++ url ++ ")"
                     /\ is_remote url = true)
        /\ is_remote (image_path m) = false
        /\ k' = S k /\ embedded_lines d = 1)
    /\ List.length d = if is_remote (image_path m) then 0 else 1.
Proof.
  intros r k' d. unfold replace_image.
  destruct (is_remote (image_path m)) eqn:Hrem.
  { intros Heq. injection Heq as <- <- <-. split; [left|]; now repeat split. }
  destruct (_find_image_file fs (image_path m) base_dir) as [img_file|].
  2:{ intros Heq. injection Heq as <- <- <-.
      split; [left|]; now repeat split. }
  destruct (exists_ fs img_file).
  2:{ intros Heq. injection Heq as <- <- <-.
      split; [left|]; now repeat split. }
  unfold _to_base64.
  destruct (read_bytes fs img_file) as [img_data|e].
  2:{ intros Heq. injection Heq as <- <- <-.
      split; [left|]; now repeat split. }
  destruct (stat_size fs img_file) as [size|e].
  2:{ intros Heq. injection Heq as <- <- <-.
      split; [left|]; now repeat split. }
  intros Heq. injection Heq as <- <- <-. split; [right|reflexivity].
  split; [|now repeat split].
  exists ("data:"
            ++ dict_get supported_formats (lower (suffix img_file)) "image/png"
            ++ ";base64," ++ Base64.b64encode img_data).
  split; [reflexivity | apply data_url_is_remote].
Qed.

Lemma substitute_bookkeeping (base_dir : Path)
    (ps : list (Re.piece ImageReference)) :
  forall k text n printed,
    substitute fs base_dir ps k = (text, n, printed) ->
    n = k + embedded_lines printed
    /\ List.length printed
       = List.length (filter (fun path => negb (is_remote path))
                             (map image_path (Re.hits ps)))
    /\ (n = k -> text = Re.source_text group0 ps).
Proof.
  induction ps as [|[c|m] ps IH]; intros k text n printed Hs.
  - cbn [substitute] in Hs. injection Hs as <- <- <-.
    now repeat split; try lia.
  - cbn [substitute] in Hs.
    destruct (substitute fs base_dir ps k) as [[out n0] printed0] eqn:Hrec.
    injection Hs as <- <- <-.
    destruct (IH _ _ _ _ Hrec) as (Hn & Hlen & Htext).
    repeat split; [exact Hn | exact Hlen|].
    intros Hk. unfold Re.source_text. cbn [map join append].
    f_equal. now apply Htext.
  - cbn [substitute] in Hs.
    destruct (replace_image fs base_dir m k) as [[r k'] d] eqn:Hrep.
    destruct (substitute fs base_dir ps k') as [[out n0] printed0] eqn:Hrec.
    injection Hs as <- <- <-.
    destruct (IH _ _ _ _ Hrec) as (Hn & Hlen & Htext).
    destruct (replace_image_outcome _ _ _ _ _ _ Hrep) as [Hcase Hd].
    assert (Hemb : embedded_lines (d ++ printed0)
                   = embedded_lines d + embedded_lines printed0).
    { unfold embedded_lines. now rewrite filter_app, length_app. }
    cbn [Re.hits map filter]. rewrite length_app, Hd, Hlen, Hemb.
    split; [|split].
    + destruct Hcase as [(_ & -> & ->)|(_ & _ & -> & ->)]; lia.
    + now destruct (is_remote (image_path m)).
    + intros Hk.
      destruct Hcase as [(-> & -> & _)|(_ & _ & -> & _)]; [|lia].
      unfold Re.source_text. cbn [map join]. f_equal.
      apply Htext. lia.
Qed.

(** X5.  The count [process] returns is the number of lines of success
    it prints; every reference that is neither a network location nor
    inlined data makes it print exactly one line, the others none; and a
    count of 0 comes with the text unchanged. *)
Theorem process_bookkeeping (content : string) (base_dir : Path)
    (text : string) (n : nat) (printed : list diagnostic) :
  process fs content base_dir = (text, n, printed) ->
  n = embedded_lines printed
  /\ List.length printed = List.length (local_references content)
  /\ n <= List.length (local_references content)
  /\ (n = 0 -> text = content).
Proof.
  unfold process. intros Hp.
  destruct (substitute_bookkeeping _ _ _ _ _ _ Hp) as (Hn & Hlen & Htext).
  cbn [Nat.add] in Hn.
  assert (Hle : embedded_lines printed <= List.length printed)
    by (unfold embedded_lines; apply filter_length_le).
  unfold local_references, extract_images, Re.findall.
  repeat split; try assumption; try lia.
  intros H0. rewrite (Htext H0).
  apply (ReFacts.finditer_source pattern group0 ImageFacts.image_pattern_sound).
Qed.

Lemma substitute_unresolved (base_dir : Path)
    (ps : list (Re.piece ImageReference)) (k : nat) :
  (forall m, In m (Re.hits ps) ->
             is_remote (image_path m) = false ->
             _find_image_file fs (image_path m) base_dir = None) ->
  substitute fs base_dir ps k
  = (Re.source_text group0 ps, k,
     map NotFound (filter (fun path => negb (is_remote path))
                          (map image_path (Re.hits ps)))).
Proof.
  induction ps as [|[c|m] ps IH]; intros Hnone.
  - reflexivity.
  - cbn [substitute]. now rewrite (IH Hnone).
  - cbn [substitute Re.hits map filter].
    assert (Hrest : forall m', In m' (Re.hits ps) ->
                      is_remote (image_path m') = false ->
                      _find_image_file fs (image_path m') base_dir = None).
    { intros m' Hin. apply Hnone. now right. }
    unfold replace_image.
    destruct (is_remote (image_path m)) eqn:Hrem.
    + now rewrite (IH Hrest).
    + rewrite (Hnone m (or_introl eq_refl) Hrem). now rewrite (IH Hrest).
Qed.

(** X6.  When none of the looked-up references resolves to a file, the
    text is returned unchanged with a count of 0, and one not-found line
    is printed for each of them, in the order of the text. *)
Theorem unresolved_references_kept (content : string) (base_dir : Path) :
  (forall path, In path (local_references content) ->
                _find_image_file fs path base_dir = None) ->
  process fs content base_dir
  = (content, 0, map NotFound (local_references content)).
Proof.
  intros Hnone. unfold process. rewrite substitute_unresolved.
  - rewrite (ReFacts.finditer_source pattern group0
               ImageFacts.image_pattern_sound).
    reflexivity.
  - intros m Hin Hrem. apply Hnone.
    unfold local_references, extract_images, Re.findall.
    apply filter_In. split; [now apply in_map|]. now rewrite Hrem.
Qed.

End WithFileSystem.

(** X5 at a text with a missing, a found and a network reference. *)
Lemma process_bookkeeping_witness :
  1 = embedded_lines [NotFound "missing.png"; Embedded "p.png" 3]
  /\ List.length [NotFound "missing.png"; Embedded "p.png" 3]
     = List.length
         (local_references
            "![x](missing.png) ![y](p.png) ![z](http://a/b.png)")
  /\ 1 <= List.length
            (local_references
               "![x](missing.png) ![y](p.png) ![z](http://a/b.png)")
  /\ (1 = 0 ->
      "![x](missing.png) ![y](data:image/png;base64,TWFu) ![z](http://a/b.png)"
      = "![x](missing.png) ![y](p.png) ![z](http://a/b.png)").
Proof.
  apply (process_bookkeeping Demo.files
           "![x](missing.png) ![y](p.png) ![z](http://a/b.png)" (mk "docs")).
  vm_compute. reflexivity.
Defined.

(** X6 at scenario A: the image is missing from the directory. *)
Lemma unresolved_references_kept_witness :
  process Demo.files ("# Title" ++ nl ++ nl ++ "![x](missing.png)")
    (mk "docs")
  = ("# Title" ++ nl ++ nl ++ "![x](missing.png)", 0,
     map NotFound
       (local_references ("# Title" ++ nl ++ nl ++ "![x](missing.png)"))).
Proof.
  apply unresolved_references_kept.
  intros path Hin. vm_compute in Hin.
  destruct Hin as [<-|[]]. vm_compute. reflexivity.
Defined.

End ImageExtras.

(** ** HTMLConverter: what a call returns and what it writes *)

Module ConverterExtras.
Import Text TextFacts Exn Pathlib Fs Themes Converter ImageLog ConverterCases.

Section WithEnvironment.
Context {FS : Type} `{FileSystem FS}.
Variable assets : Assets.
Variable markdown : string -> result MdOutput.

Lemma convert_inversion (fs fs' : FS) (src : Path) (out : option Path)
    (theme : string) (ei pm : bool) (r : ConversionResult) :
  convert assets markdown fs src out theme ei pm = Returned r fs' ->
  exists o, output_or_default src out = Ok o
            /\ returned assets markdown fs src theme ei pm o r fs'.
Proof.
  unfold convert, on_exception, attempt.
  pose proof (ConverterFacts.document_keeps_fs assets markdown src theme
                ei pm fs) as Hk.
  destruct (output_or_default src out) as [o|e0] eqn:Ho.
  2:{ destruct (exists_ fs src); cbn [negb].
      - unfold rbind at 1.
        destruct (document assets markdown src theme ei pm fs)
          as [[[doc n]|e] fs0]; unfold rbind, lift; discriminate.
      - unfold rbind, lift. discriminate. }
  intros Hc. exists o. split; [reflexivity|]. revert Hc.
  destruct (exists_ fs src) eqn:Hex; cbn [negb].
  2:{ unfold rbind, lift, ret. intros Hc.
      injection Hc as <- <-. now constructor. }
  unfold rbind at 1.
  destruct (document assets markdown src theme ei pm fs)
    as [[[doc n]|e] fs0] eqn:Hd; cbn [snd] in Hk; subst fs0.
  2:{ cbn [bind]. intros Hc. injection Hc as <- <-.
      now apply returned_unbuilt. }
  unfold rbind, lift, ret.
  destruct (write_text fs o doc) as [fs1 [e|]] eqn:Hw.
  { cbn [bind]. intros Hc. injection Hc as <- <-.
    eapply returned_unwritten; eassumption. }
  destruct (stat_size fs1 o) as [size|e] eqn:Hst.
  - intros Hc. injection Hc as <- <-.
    eapply returned_converted; eassumption.
  - cbn [bind]. intros Hc. injection Hc as <- <-.
    eapply returned_unmeasured; eassumption.
Qed.

(** X7.  A result returned by [convert] names the output path that was
    given or, without one, the source path with the suffix [.html].  A
    successful result reports the size of the file now at that path and
    carries no message; a failed result reports size 0 and image count
    0 and carries a message. *)
Theorem convert_result_shape (fs fs' : FS) (src : Path) (out : option Path)
    (theme : string) (ei pm : bool) (r : ConversionResult) :
  convert assets markdown fs src out theme ei pm = Returned r fs' ->
  output_or_default src out = Ok (output_path r)
  /\ (success r = true ->
      error_message r = None
      /\ stat_size fs' (output_path r) = Ok (file_size r))
  /\ (success r = false ->
      file_size r = 0 /\ image_count r = 0 /\ error_message r <> None).
Proof.
  intros Hc. destruct (convert_inversion _ _ _ _ _ _ _ _ Hc) as (o & Ho & Hr).
  destruct Hr; cbn [output_path success file_size image_count error_message
                    failure_result];
    (split; [exact Ho|]); split; intros Hs; try discriminate Hs;
    repeat split; try assumption; discriminate.
Qed.

(** X8.  With an output path given, or for a source path that has a
    name, [convert] returns a result: no exception leaves it. *)
Theorem convert_always_returns (fs : FS) (src : Path) (out : option Path)
    (theme : string) (ei pm : bool) :
  out <> None \/ name src <> "" ->
  exists r fs', convert assets markdown fs src out theme ei pm = Returned r fs'.
Proof.
  intros Hnamed.
  assert (Ho : exists o, output_or_default src out = Ok o).
  { destruct out as [p|]; [now exists p|].
    destruct Hnamed as [Hout|Hname]; [congruence|].
    cbn [output_or_default]. unfold with_suffix.
    destruct (String.eqb_spec (name src) ""); [contradiction | eauto]. }
  destruct Ho as [o Ho].
  destruct (ConverterFacts.convert_returns assets markdown fs src out theme
              ei pm o Ho) as (r & fs' & Hc & _).
  now exists r, fs'.
Qed.


(** X10.  [convert] writes at most once, and only at the output path of
    its result: the file system it leaves is the one it found, or the
    one a single [write_text] at that path produced.  When an exception
    leaves [convert], nothing was written. *)
Theorem convert_writes_at_most_once (fs : FS) (src : Path)
    (out : option Path) (theme : string) (ei pm : bool) :
  match convert assets markdown fs src out theme ei pm with
  | Returned r fs' =>
      fs' = fs
      \/ exists doc oe, write_text fs (output_path r) doc = (fs', oe)
  | Raised _ fs' => fs' = fs
  end.
Proof.
  destruct (convert assets markdown fs src out theme ei pm)
    as [r fs'|e fs'] eqn:Hc.
  - destruct (convert_inversion _ _ _ _ _ _ _ _ Hc) as (o & Ho & Hr).
    destruct Hr; cbn [output_path failure_result]; eauto.
  - destruct (output_or_default src out) as [o|e0] eqn:Ho.
    + destruct (ConverterFacts.convert_returns assets markdown fs src out
                  theme ei pm o Ho) as (r & fs1 & Hc' & _).
      congruence.
    + rewrite (ConverterFacts.convert_escapes assets markdown fs src out
                 theme ei pm e0 Ho) in Hc.
      now injection Hc as _ <-.
Qed.

Lemma document_count (fs : FS) (src : Path) (theme : string) (ei pm : bool)
    (doc : string) (n : nat) :
  document assets markdown src theme ei pm fs = (Ok (doc, n), fs) ->
  (ei = false -> n = 0)
  /\ (forall text, read_text fs src = Ok text ->
                   n <= List.length (local_references text)).
Proof.
  unfold document, rbind at 1.
  destruct (read_text fs src) as [text|e] eqn:Hread; [|discriminate].
  destruct (rewrite fs src text ei pm) as [md_content k] eqn:Hrw.
  unfold rbind, lift, ret.
  destruct (markdown md_content) as [md|e]; [|discriminate].
  destruct (resolve_title (Meta md) src) as [title|e]; [|discriminate].
  intros Hd. injection Hd as _ <-.
  revert Hrw. unfold rewrite. destruct ei.
  - destruct (Image.process fs text (parent src)) as [[t c] printed] eqn:Hp.
    intros Hrw. injection Hrw as _ <-.
    split; [discriminate|]. intros text' Ht. injection Ht as <-.
    unfold Image.process in Hp.
    destruct (ImageExtras.substitute_bookkeeping fs _ _ _ _ _ _ Hp)
      as (Hn & Hlen & _).
    cbn [Nat.add] in Hn.
    unfold local_references, Image.extract_images, Re.findall.
    rewrite <- Hlen, Hn. unfold embedded_lines. apply filter_length_le.
  - intros Hrw. injection Hrw as _ <-. split; [reflexivity|]. intros. lia.
Qed.

(** X11.  The image count of a result never exceeds the number of
    references of the source text that are neither network locations
    nor inlined data, and it is 0 when image embedding is switched
    off. *)
Theorem image_count_bounded (fs fs' : FS) (src : Path) (out : option Path)
    (theme : string) (ei pm : bool) (r : ConversionResult) :
  convert assets markdown fs src out theme ei pm = Returned r fs' ->
  (ei = false -> image_count r = 0)
  /\ (forall text, read_text fs src = Ok text ->
                   image_count r <= List.length (local_references text)).
Proof.
  intros Hc. destruct (convert_inversion _ _ _ _ _ _ _ _ Hc) as (o & Ho & Hr).
  destruct Hr as [Hex|e Hex Hd|doc n e fs1 Hex Hd Hw|doc n e fs1 Hex Hd Hw Hst
                  |doc n size fs1 Hex Hd Hw Hst];
    cbn [image_count failure_result];
    try (split; [reflexivity | intros; lia]).
  exact (document_count _ _ _ _ _ _ _ Hd).
Qed.

(** X12.  When an output directory is given, or every source path has a
    name, [convert_batch] returns one result per source, in the order of
    the sources; each result names the output path of its source: the
    stem with [.html] in the output directory, or the source with the
    suffix [.html]. *)
Theorem convert_batch_one_result_each (fs : FS) (paths : list Path)
    (output_dir : option Path) (theme : string) (ei pm : bool) :
  (output_dir = None -> Forall (fun src => name src <> "") paths) ->
  exists rs fs',
    convert_batch assets markdown fs paths output_dir theme ei pm
    = Returned rs fs'
    /\ Forall2 (fun src r =>
                  output_or_default src
                    match output_dir with
                    | Some d => Some (joinpath d (stem src ++ ".html"))
                    | None => None
                    end = Ok (output_path r)) paths rs.
Proof.
  intros Hnames.
  destruct (ConverterFacts.batch_loop_returns assets markdown paths
              output_dir theme ei pm Hnames fs [])
    as (rs & fs' & Hb & Hall).
  exists rs, fs'. split; [exact Hb | exact Hall].
Qed.

End WithEnvironment.

(** X7 at the conversion of a document of the store. *)
Lemma convert_result_shape_witness :
  exists r fs',
    convert Demo.assets Demo.markdown Demo.files (mk "docs/notes.md") None
      "minimal" true false = Returned r fs'
    /\ output_or_default (mk "docs/notes.md") None = Ok (output_path r)
    /\ output_path r = mk "docs/notes.html".
Proof.
  destruct (convert Demo.assets Demo.markdown Demo.files (mk "docs/notes.md")
              None "minimal" true false) as [r fs'|e fs'] eqn:Hc;
    [|vm_compute in Hc; discriminate].
  exists r, fs'. split; [reflexivity|].
  destruct (convert_result_shape Demo.assets Demo.markdown _ _ _ _ _ _ _ _ Hc)
    as (Ho & _). split; [exact Ho|].
  assert (Hdef : output_or_default (mk "docs/notes.md") None
                 = Ok (mk "docs/notes.html")) by reflexivity.
  rewrite Hdef in Ho. now injection Ho.
Defined.

(** X8 at a source with a name that is a directory. *)
Lemma convert_always_returns_witness :
  exists r fs',
    convert Demo.assets Demo.markdown Demo.files (mk "docs") None
      "default" true true = Returned r fs'.
Proof.
  apply (convert_always_returns Demo.assets Demo.markdown).
  right. discriminate.
Defined.


(** X11 at a document with one image that is found. *)
Lemma image_count_bounded_witness :
  exists r fs',
    convert Demo.assets Demo.markdown
      ((mk "docs/pic.md", File "![y](p.png)") :: Demo.files)
      (mk "docs/pic.md") None "default" true true = Returned r fs'
    /\ image_count r <= 1.
Proof.
  destruct (convert Demo.assets Demo.markdown
              ((mk "docs/pic.md", File "![y](p.png)") :: Demo.files)
              (mk "docs/pic.md") None "default" true true)
    as [r fs'|e fs'] eqn:Hc; [|vm_compute in Hc; discriminate].
  exists r, fs'. split; [reflexivity|].
  destruct (image_count_bounded Demo.assets Demo.markdown _ _ _ _ _ _ _ _ Hc)
    as [_ Hle].
  exact (Hle "![y](p.png)" eq_refl).
Defined.

(** X12 at the three documents of the store. *)
Lemma convert_batch_one_result_each_witness :
  exists rs fs',
    convert_batch Demo.assets Demo.markdown Demo.files
      [mk "docs/notes.md"; mk "docs/bad.md"; mk "docs/empty.md"]
      (Some (mk "docs")) "default" true true = Returned rs fs'
    /\ List.length rs = 3.
Proof.
  destruct (convert_batch_one_result_each Demo.assets Demo.markdown
              Demo.files
              [mk "docs/notes.md"; mk "docs/bad.md"; mk "docs/empty.md"]
              (Some (mk "docs")) "default" true true)
    as (rs & fs' & Hb & Hall).
  - discriminate.
  - exists rs, fs'. split; [exact Hb|].
    now rewrite <- (Forall2_length Hall).
Defined.

End ConverterExtras.

(** ** Themes: the names listed and the names recognised *)

Module ThemesExtras.
Import Themes.

(** X13.  The names [list_themes] returns are the names [get_theme]
    recognises: they select three different theme classes, and the
    default theme is selected by [default] and by every name that is
    not listed, and by no other. *)
Theorem listed_themes_recognised (name : string) :
  (get_theme name = DefaultTheme
   <-> name = "default" \/ ~ In name list_themes)
  /\ (get_theme name = MinimalTheme <-> name = "minimal")
  /\ (get_theme name = ProfessionalTheme <-> name = "professional").
Proof.
  unfold get_theme, themes, list_themes. cbn [Image.dict_get In].
  destruct (String.eqb_spec "default" name) as [<-|Hd].
  { repeat split; try discriminate; auto. }
  destruct (String.eqb_spec "minimal" name) as [<-|Hm].
  { repeat split; try discriminate; auto.
    intros [Heq|Hnot]; [discriminate|]. elim Hnot. auto. }
  destruct (String.eqb_spec "professional" name) as [<-|Hp].
  { repeat split; try discriminate; auto.
    intros [Heq|Hnot]; [discriminate|]. elim Hnot. auto. }
  repeat split; try discriminate; try congruence.
  intros _. right. intros [H1|[H2|[H3|[]]]]; congruence.
Qed.

End ThemesExtras.

(** ** StatsTracker: what the counters hold *)

Module StatsExtras.
Import Pathlib Converter Stats.

Section WithClock.
Variable Seconds : Type.
Variable add_seconds : Seconds -> Duration -> Seconds.
Variable Time : Type.

Lemma track_all_step (t : StatsTracker Seconds Time)
    (run : list (ConversionResult * Path)) (r : ConversionResult) (p : Path) :
  track_all Seconds add_seconds Time t ((r, p) :: run)
  = track_all Seconds add_seconds Time
      (track_result Seconds add_seconds Time t r p) run.
Proof. reflexivity. Qed.

(** X14.  Tracking a run of results adds one to [total_files] and one
    record, in order, per result; [successful] grows by the number of
    successes and [failed] by the number of failures; [total_size] and
    [total_images] grow by the sizes and image counts of the successes
    only; a record carries an error message only for a failure. *)
Theorem track_all_counts (t : StatsTracker Seconds Time)
    (run : list (ConversionResult * Path)) :
  let t' := track_all Seconds add_seconds Time t run in
  total_files _ _ (stats _ _ t')
  = total_files _ _ (stats _ _ t) + List.length run
  /\ successful _ _ (stats _ _ t')
     = successful _ _ (stats _ _ t) + List.length (successes run)
  /\ failed _ _ (stats _ _ t') + List.length (successes run)
     = failed _ _ (stats _ _ t) + List.length run
  /\ total_size _ _ (stats _ _ t')
     = total_size _ _ (stats _ _ t) + sum_of file_size (successes run)
  /\ total_images _ _ (stats _ _ t')
     = total_images _ _ (stats _ _ t) + sum_of image_count (successes run)
  /\ file_records _ _ t'
     = (file_records _ _ t
        ++ map (fun rp => file_record (fst rp) (snd rp)) run)%list
  /\ Forall (fun rec => record_success rec = true -> record_error rec = None)
            (map (fun rp => file_record (fst rp) (snd rp)) run).
Proof.
  revert t. induction run as [|[r p] run IH]; intros t.
  - cbn. rewrite app_nil_r. repeat split; try lia. constructor.
  - cbn zeta. rewrite track_all_step.
    remember (track_result Seconds add_seconds Time t r p) as t1 eqn:Ht1.
    destruct (IH t1) as (Hf & Hs & Hfail & Hsize & Himg & Hrec & Herr).
    cbn zeta in *.
    assert (E1 : total_files _ _ (stats _ _ t1)
                 = total_files _ _ (stats _ _ t) + 1) by now subst t1.
    assert (E2 : successful _ _ (stats _ _ t1)
                 = if success r then successful _ _ (stats _ _ t) + 1
                   else successful _ _ (stats _ _ t)) by now subst t1.
    assert (E3 : failed _ _ (stats _ _ t1)
                 = if success r then failed _ _ (stats _ _ t)
                   else failed _ _ (stats _ _ t) + 1) by now subst t1.
    assert (E4 : total_size _ _ (stats _ _ t1)
                 = if success r
                   then total_size _ _ (stats _ _ t) + file_size r
                   else total_size _ _ (stats _ _ t)) by now subst t1.
    assert (E5 : total_images _ _ (stats _ _ t1)
                 = if success r
                   then total_images _ _ (stats _ _ t) + image_count r
                   else total_images _ _ (stats _ _ t)) by now subst t1.
    assert (E6 : file_records _ _ t1
                 = (file_records _ _ t ++ [file_record r p])%list)
      by now subst t1.
    rewrite Hrec, E6, <- app_assoc.
    unfold successes, sum_of in *. cbn [map fst snd filter List.length].
    destruct (success r) eqn:Hsucc; cbn [List.length fold_right app];
      (repeat split; try lia;
       constructor; [|exact Herr];
       unfold file_record; cbn [record_success record_error];
       rewrite Hsucc; intros; try reflexivity; discriminate).
Qed.

End WithClock.

End StatsExtras.

(** ** BatchProcessor: the report for one file *)

Module BatchExtras.
Import Text Exn Pathlib Fs Themes Converter ConverterCases Batch.

Section WithEnvironment.
Context {FS : Type} `{FileSystem FS}.
Variable assets : Assets.
Variable markdown : string -> result MdOutput.

(** X15.  The report of [_process_file] is a success exactly when the
    conversion is; it then carries the size of the written file and the
    image count of the conversion, and no error. *)
Theorem process_file_success (fs fs' : FS) (src o : Path) (theme : string)
    (ei pm : bool) (rep : FileReport) :
  _process_file assets markdown fs src o theme ei pm = (rep, fs') ->
  exists r,
    convert assets markdown fs src (Some o) theme ei pm = Returned r fs'
    /\ report_success rep = success r
    /\ (success r = true ->
        size_bytes rep = file_size r
        /\ report_images rep = image_count r
        /\ error rep = None).
Proof.
  unfold _process_file. intros Hp.
  destruct (ConverterFacts.convert_returns assets markdown fs src (Some o)
              theme ei pm o eq_refl) as (r & fs1 & Hc & Hout).
  rewrite Hc in Hp.
  destruct (ConverterExtras.convert_inversion _ _ _ _ _ _ _ _ _ _ Hc)
    as (o' & Ho & Hr).
  cbn [output_or_default] in Ho. injection Ho as <-.
  destruct Hr as [Hex|e Hex Hd|doc n e fs2 Hex Hd Hw|doc n e fs2 Hex Hd Hw Hst
                  |doc n size fs2 Hex Hd Hw Hst].
  5:{ rewrite Hst in Hp. injection Hp as <- <-.
      eexists. split; [exact Hc|]. now repeat split. }
  all: destruct (stat_size _ o) as [bytes|e'];
    injection Hp as <- <-;
    (eexists; split; [exact Hc|]; split; [reflexivity|];
     intros Hs; discriminate Hs).
Qed.

(** X16.  When the source does not exist and there is no file at the
    output path either, the report carries the error of the size lookup
    at the output path; the message of the conversion about the missing
    source is not in it.  With a file already at the output path, the
    report of the failed conversion carries that message, and the size
    of that file. *)
Theorem process_file_missing_source (fs : FS) (src o : Path) (theme : string)
    (ei pm : bool) :
  exists_ fs src = false ->
  (forall e, stat_size fs o = Raise e ->
             _process_file assets markdown fs src o theme ei pm
             = (failed_report src o e, fs))
  /\ (forall bytes, stat_size fs o = Ok bytes ->
                    _process_file assets markdown fs src o theme ei pm
                    = ({| source := str src;
                          output := str o;
                          report_success := false;
                          error := Some ("文件不存在: " ++ str src);
                          size_bytes := bytes;
                          report_duration := Measured;
                          report_images := 0 |}, fs)).
Proof.
  intros Hex.
  assert (Hc : convert assets markdown fs src (Some o) theme ei pm
               = Returned {| success := false;
                             output_path := o;
                             file_size := 0;
                             image_count := 0;
                             duration := NoTime;
                             error_message :=
                               Some ("文件不存在: " ++ str src) |} fs).
  { unfold convert, attempt. rewrite Hex. reflexivity. }
  split; intros x Hst; unfold _process_file; now rewrite Hc, Hst.
Qed.

End WithEnvironment.

(** X15 at a document of the store. *)
Lemma process_file_success_witness :
  exists rep fs' r,
    _process_file Demo.assets Demo.markdown Demo.files (mk "docs/notes.md")
      (mk "docs/out.html") "default" true true = (rep, fs')
    /\ convert Demo.assets Demo.markdown Demo.files (mk "docs/notes.md")
         (Some (mk "docs/out.html")) "default" true true = Returned r fs'
    /\ report_success rep = success r.
Proof.
  destruct (_process_file Demo.assets Demo.markdown Demo.files
              (mk "docs/notes.md") (mk "docs/out.html") "default" true true)
    as [rep fs'] eqn:Hp.
  destruct (process_file_success Demo.assets Demo.markdown _ _ _ _ _ _ _ _ Hp)
    as (r & Hc & Hs & _).
  now exists rep, fs', r.
Defined.

(** X16 at a source and an output that are not in the store. *)
Lemma process_file_missing_source_witness :
  _process_file Demo.assets Demo.markdown Demo.files (mk "docs/nothere.md")
    (mk "docs/nothere.html") "default" true true
  = (failed_report (mk "docs/nothere.md") (mk "docs/nothere.html")
       (os_error "FileNotFoundError" "[Errno 2] No such file or directory"
          (mk "docs/nothere.html")),
     Demo.files).
Proof.
  assert (Hex : exists_ Demo.files (mk "docs/nothere.md") = false)
    by reflexivity.
  apply (proj1 (process_file_missing_source Demo.assets Demo.markdown
                  Demo.files (mk "docs/nothere.md") (mk "docs/nothere.html")
                  "default" true true Hex)).
  reflexivity.
Defined.

End BatchExtras.

(** ** The command line: the exit status and the statistics *)

Module CliExtras.
Import Text Exn Pathlib Fs Themes Converter Stats Cli.

Section WithEnvironment.
Context {FS : Type} `{FileSystem FS}.
Variable assets : Assets.
Variable markdown : string -> result MdOutput.
Variable Seconds : Type.
Variable add_seconds : Seconds -> Duration -> Seconds.
Variable zero_seconds : Seconds.
Variable Time : Type.
Variable now : Time.
Variable find_files : FS -> Args -> list Path.
Variable mkdir : FS -> Path -> FS * option exn.

(** The loop keeps its count of successes in step with the tracker. *)
Lemma convert_each_counts (files : list Path) :
  forall fs args output_dir total t n n' t' fs',
    convert_each assets markdown Seconds add_seconds Time fs args output_dir
      total t n files = Returned (n', t') fs' ->
    n <= n'
    /\ successful _ _ (stats _ _ t') = successful _ _ (stats _ _ t) + (n' - n)
    /\ failed _ _ (stats _ _ t') + (n' - n)
       = failed _ _ (stats _ _ t) + List.length files
    /\ total_files _ _ (stats _ _ t')
       = total_files _ _ (stats _ _ t) + List.length files.
Proof.
  induction files as [|f files IH]; intros fs args od total t n n' t' fs' Hc.
  - cbn in Hc. injection Hc as <- <- <-. cbn. lia.
  - cbn [convert_each] in Hc.
    destruct (convert assets markdown fs f (output_for args od total f)
                (theme args) (negb (no_images args)) (negb (no_mermaid args)))
      as [r fs1|e fs1]; [|discriminate Hc].
    apply IH in Hc. cbn [track_result stats successful failed total_files] in Hc.
    cbn [List.length].
    destruct (success r); lia.
Qed.

(** X17.  When [run_conversion] returns, the tracker has counted every
    file found, each as a success or as a failure, and the exit status
    reads off these counts: 0 when at least one file was found and none
    failed, 2 when some succeeded and some failed, 1 when none
    succeeded, which includes that no file was found. *)
Theorem exit_status_reflects_counts (args : Args) (fs fs' : FS) (code : nat)
    (t : StatsTracker Seconds Time) :
  run_conversion assets markdown Seconds add_seconds zero_seconds Time now
    find_files mkdir args fs = Returned (code, t) fs' ->
  let s := stats _ _ t in
  (find_files fs args <> [] ->
   total_files _ _ s = List.length (find_files fs args))
  /\ total_files _ _ s = successful _ _ s + failed _ _ s
  /\ (code = 0 <-> find_files fs args <> [] /\ failed _ _ s = 0)
  /\ (code = 2 <-> 0 < successful _ _ s /\ 0 < failed _ _ s)
  /\ (code = 1 <-> successful _ _ s = 0).
Proof.
  unfold run_conversion. intros Hr.
  destruct (find_files fs args) as [|f files] eqn:Hfiles.
  { injection Hr as <- <- <-. cbn. repeat split; try lia; try congruence.
    intros [Hne _]. now elim Hne. }
  remember (f :: files) as fl eqn:Hfl.
  assert (Hlen : 0 < List.length fl) by (subst fl; cbn; lia).
  destruct (match output_directory args fl with
            | Some d => mkdir fs d
            | None => (fs, None)
            end) as [fs1 [e|]]; [discriminate Hr|].
  destruct (convert_each assets markdown Seconds add_seconds Time fs1 args
              (output_directory args fl) (List.length fl)
              (new_tracker Seconds zero_seconds Time now) 0 fl)
    as [[n t1] fs2|e fs2] eqn:Hc; [|discriminate Hr].
  injection Hr as <- <- <-.
  apply convert_each_counts in Hc.
  cbn [new_tracker new_stats stats successful failed total_files] in Hc.
  destruct Hc as (_ & Hs & Hf & Ht).
  cbn zeta. unfold status.
  assert (Hfl' : fl <> []) by (subst fl; discriminate).
  destruct (Nat.eqb_spec n (List.length fl)) as [Heq|Hneq];
    [|destruct (Nat.ltb_spec 0 n)];
    repeat split; intros; try lia; try discriminate; try assumption;
    try (match goal with Hx : _ /\ _ |- _ => destruct Hx end; lia).
Qed.

End WithEnvironment.

(** X17 at a run over two documents of the store, one of which fails. *)
Lemma exit_status_reflects_counts_witness :
  exists t fs',
    run_conversion Demo.assets Demo.markdown nat
      (fun total d => match d with Measured => S total | NoTime => total end)
      0 nat 0
      (fun _ _ => [mk "docs/notes.md"; mk "docs/bad.md"])
      (fun fs _ => (fs, None))
      {| input := "docs"; output := None; theme := "default";
         recursive := false; no_images := false; no_mermaid := false;
         stats_flag := false; verbose := false |}
      Demo.files
    = Returned (2, t) fs'
    /\ (2 = 2 <-> 0 < successful _ _ (stats _ _ t)
                  /\ 0 < failed _ _ (stats _ _ t)).
Proof.
  eexists. eexists.
  assert (Hr : run_conversion Demo.assets Demo.markdown nat
      (fun total d => match d with Measured => S total | NoTime => total end)
      0 nat 0
      (fun _ _ => [mk "docs/notes.md"; mk "docs/bad.md"])
      (fun fs _ => (fs, None))
      {| input := "docs"; output := None; theme := "default";
         recursive := false; no_images := false; no_mermaid := false;
         stats_flag := false; verbose := false |}
      Demo.files
    = Returned (2, _) _) by (vm_compute; reflexivity).
  split; [exact Hr|].
  exact (proj1 (proj2 (proj2 (proj2
           (exit_status_reflects_counts _ _ _ _ _ _ _ _ _ _ _ _ _ _ Hr))))).
Defined.

End CliExtras.
